(** * packz: shallow embedding of [packz.py] and its path-mapping properties

    The first part follows the layout of the Python module: the [str]
    and [posixpath] primitives the code calls, insertion-ordered
    dictionaries, the exceptions the code can see, the platform and the
    file system, then [get_installed], [PackRunner.lsof], [start],
    [stop], [which_module], [path_map], [copy_list] and [copy], written
    in a monad whose state survives exceptions, as the attributes of a
    Python object do.  Library functions that cannot be computed from
    the arguments alone ([realpath], [fnmatch], the shell) are fields of
    the class [Platform] or of the state; every statement holds for all
    of them, and [Demo] fixes one platform to run the code on.

    The second part states and proves the properties, one section per
    function.  Python [str] values are modelled by [string]: a sequence
    of characters with codes below 256. *)

From Stdlib Require Import ZArith String Ascii Bool List Lia.
From Stdlib Require Import Numbers.DecimalString.
From stdpp Require Import gmap strings list.

Local Open Scope Z_scope.

(* ===================================================================== *)
(** ** Python [str] primitives used by the module *)
(* ===================================================================== *)

Module Str.

(** [s.startswith(p)] *)
Definition startswith (s p : string) : bool := String.prefix p s.

(** [s[i:]] for a non-negative index: drops [i] characters, clamped. *)
Fixpoint slice_from (i : nat) (s : string) : string :=
  match i, s with
  | O, _ => s
  | S i', String _ s' => slice_from i' s'
  | S _, EmptyString => EmptyString
  end.

(** [s[:i]] for a non-negative index: keeps [i] characters, clamped. *)
Fixpoint slice_to (i : nat) (s : string) : string :=
  match i, s with
  | O, _ => EmptyString
  | S i', String c s' => String c (slice_to i' s')
  | S _, EmptyString => EmptyString
  end.

(** [s.endswith(p)] *)
Definition endswith (s p : string) : bool :=
  (String.length p <=? String.length s)%nat &&
  String.eqb (slice_from (String.length s - String.length p) s) p.

(** [s.rfind(c)] for a one-character needle: index of the last occurrence,
    [-1] when there is none. *)
Fixpoint rfind (c : ascii) (s : string) : Z :=
  match s with
  | EmptyString => -1
  | String a s' =>
      let r := rfind c s' in
      if 0 <=? r then r + 1
      else if Ascii.eqb a c then 0 else -1
  end.

(** [s.rstrip(c)] for a one-character set. *)
Fixpoint rstrip (c : ascii) (s : string) : string :=
  match s with
  | EmptyString => EmptyString
  | String a s' =>
      match rstrip c s' with
      | EmptyString => if Ascii.eqb a c then EmptyString
                       else String a EmptyString
      | r => String a r
      end
  end.

(** [c * n] *)
Fixpoint repeat (c : ascii) (n : nat) : string :=
  match n with
  | O => EmptyString
  | S n' => String c (repeat c n')
  end.

(** [a > b] on [str]: lexicographic order on character codes. *)
Definition gt (a b : string) : bool :=
  match String.compare a b with Gt => true | _ => false end.

(** [c in s] for a character. *)
Fixpoint contains (c : ascii) (s : string) : bool :=
  match s with
  | EmptyString => false
  | String a s' => Ascii.eqb a c || contains c s'
  end.

(** The characters [str.split()] treats as white space, among the codes
    below 256. *)
Definition isspace (c : ascii) : bool :=
  let n := N_of_ascii c in
  ((9 <=? n) && (n <=? 13) || (28 <=? n) && (n <=? 32) ||
   (n =? 133) || (n =? 160))%N.

(** [s.split()] : maximal runs of non-space characters.  [cur] holds the
    run being read, reversed. *)
Fixpoint split_go (cur : list ascii) (s : string) : list string :=
  let flush rest :=
    match cur with
    | [] => rest
    | _ => string_of_list_ascii (rev cur) :: rest
    end in
  match s with
  | EmptyString => flush []
  | String c s' =>
      if isspace c then flush (split_go [] s')
      else split_go (c :: cur) s'
  end.

Definition split (s : string) : list string := split_go [] s.

(** [str(n)] for a non-negative integer. *)
Definition of_N (n : N) : string := NilZero.string_of_uint (N.to_uint n).

End Str.

(** [max(xs)] on strings: the first greatest element, [xs] non-empty. *)
Fixpoint max_from (best : string) (xs : list string) : string :=
  match xs with
  | [] => best
  | x :: xs' => max_from (if Str.gt x best then x else best) xs'
  end.

(* ===================================================================== *)
(** ** [posixpath] *)
(* ===================================================================== *)

Module posixpath.

Definition sep : ascii := "/"%char.

(** [os.path.split(p)] *)
Definition split (p : string) : string * string :=
  let i := Z.to_nat (Str.rfind sep p + 1) in
  let head := Str.slice_to i p in
  let tail := Str.slice_from i p in
  let head :=
    if negb (String.eqb head "") &&
       negb (String.eqb head (Str.repeat sep (String.length head)))
    then Str.rstrip sep head
    else head in
  (head, tail).

(** [os.path.join(a, b)] *)
Definition join (a b : string) : string :=
  if Str.startswith b (String sep "") then b
  else if String.eqb a "" || Str.endswith a (String sep "") then a +:+ b
  else a +:+ String sep "" +:+ b.

End posixpath.

(* ===================================================================== *)
(** ** [dict]: insertion-ordered association lists *)
(* ===================================================================== *)

Module Dict.
Section Dict.
Context {K V : Type} `{EqDecision K}.

(** [d[k]], [None] standing for [KeyError] *)
Fixpoint get (d : list (K * V)) (k : K) : option V :=
  match d with
  | [] => None
  | (k', v) :: d' => if decide (k = k') then Some v else get d' k
  end.

(** [d[k] = v]: an existing key keeps its position, a new key goes last. *)
Fixpoint set (d : list (K * V)) (k : K) (v : V) : list (K * V) :=
  match d with
  | [] => [(k, v)]
  | (k', v') :: d' =>
      if decide (k = k') then (k, v) :: d' else (k', v') :: set d' k v
  end.

Definition keys (d : list (K * V)) : list K := map fst d.

End Dict.
End Dict.

(* ===================================================================== *)
(** ** Exceptions and results *)
(* ===================================================================== *)

Inductive exn : Type :=
  | KeyError
  | ValueError
  | AttributeError
  | FileNotFoundError
  | FileExistsError
  | NotADirectoryError
  | IsADirectoryError
  | SameFileError
  | OSError
  | CalledProcessError (returncode : Z)
  | UnicodeDecodeError.

Inductive result (A : Type) : Type :=
  | Ok (a : A)
  | Raise (e : exn).
Arguments Ok {A} a.
Arguments Raise {A} e.

(* ===================================================================== *)
(** ** The platform: what the interpreter and the operating system supply *)
(* ===================================================================== *)

(** Outcome of running a shell command line to completion. *)
Inductive completed : Type :=
  | Exited (returncode : Z) (output : string)
  | NotStarted.

(** What the program [lsof] does when the shell runs it: there is no
    such program, or it exits with a status, having written [output]. *)
Inductive tool : Type :=
  | Absent
  | Ran (status : Z) (output : string).

Definition tool_stdout (t : tool) : string :=
  match t with
  | Absent => EmptyString
  | Ran _ output => output
  end.

(** The lines of a text; [cur] holds the line being read, reversed. *)
Fixpoint text_lines_go (cur : list ascii) (s : string) : list string :=
  match s with
  | EmptyString =>
      match cur with
      | [] => []
      | _ => [string_of_list_ascii (rev cur)]
      end
  | String c s' =>
      if Ascii.eqb c "010" then
        string_of_list_ascii (rev cur) :: text_lines_go [] s'
      else text_lines_go (c :: cur) s'
  end.

Definition text_lines (s : string) : list string := text_lines_go [] s.

(** [grep ^n/] on lines *)
Definition grep_n (ls : list string) : list string :=
  List.filter (fun l => Str.startswith l "n/") ls.

(** [cut -c2-] on lines *)
Definition cut_c2 (ls : list string) : list string :=
  map (Str.slice_from 1) ls.

Definition unlines (ls : list string) : string :=
  fold_right (fun l acc => l +:+ String "010" acc) EmptyString ls.

(** What the pipeline [lsof ... | grep ^n/ | cut -c2-] writes, given
    what its first stage wrote. *)
Definition pipeline_stdout (lsof_output : string) : string :=
  unlines (cut_c2 (grep_n (text_lines lsof_output))).

(** [sh -c 'lsof ... | grep ^n/ | cut -c2- '] with working [grep] and
    [cut]: the status of a pipeline is the status of its last stage, so
    it is 0 whatever [lsof] does. *)
Definition sh_pipeline (t : tool) : completed :=
  Exited 0 (pipeline_stdout (tool_stdout t)).

(** Library functions whose result is fixed during one run. *)
Class Platform : Type := {
  (** [os.path.expanduser] *)
  expanduser : string -> string;
  (** [os.path.realpath] *)
  realpath : string -> string;
  (** [fnmatch.fnmatch name pat] *)
  fnmatch : string -> string -> bool;
  (** [os.getpid()] *)
  getpid : N;
  (** the names [pkgutil.iter_modules()] yields, in order *)
  iter_modules : list string;
  (** [find_loader(name).get_filename()], [None] when either call raises *)
  get_filename : string -> option string;
  (** [bytes.decode('utf-8')], [None] for [UnicodeDecodeError] *)
  decode_utf8 : string -> option string;
  (** [co_filename] of the code of this module, as the hook sees it *)
  module_file : string;
}.

(** A file system as [stat] sees it: absolute path to regular file or
    directory. *)
Inductive node : Type :=
  | File (data : string)
  | Dir.

(** What [print] is given. *)
Inductive line : Type :=
  | TotalSize (bytes : Z)
  | Copying (i n : nat) (dst : string).

(** Attributes of a [PackRunner] instance; the ones assigned outside
    [__init__] are [None] until their first assignment. *)
Record PackRunner : Type := mkPackRunner {
  mod_blacklist : option (list string);
  file_blacklist : option (list string);
  installed : list (string * string);
  stdlib : gset string;
  _lsof_start : option (gset string);
  _files : option (list string);
  _lsof_stop : option (gset string);
  _totals : option (gmap string Z);
}.

Record World : Type := mkWorld {
  self : PackRunner;
  disk : gmap string node;
  (** what [sh -c cmd] would do now *)
  shell : string -> completed;
  (** whether the trace hook is installed *)
  settrace : bool;
  stdout : list line;
}.

Definition with_self (f : PackRunner -> PackRunner) (w : World) : World :=
  mkWorld (f (self w)) (disk w) (shell w) (settrace w) (stdout w).

Definition with_disk (d : gmap string node) (w : World) : World :=
  mkWorld (self w) d (shell w) (settrace w) (stdout w).

Definition with_settrace (b : bool) (w : World) : World :=
  mkWorld (self w) (disk w) (shell w) b (stdout w).

Definition print (l : line) (w : World) : World :=
  mkWorld (self w) (disk w) (shell w) (settrace w) (stdout w ++ [l]).

Definition set__lsof_start (v : gset string) (r : PackRunner) : PackRunner :=
  mkPackRunner (mod_blacklist r) (file_blacklist r) (installed r) (stdlib r)
    (Some v) (_files r) (_lsof_stop r) (_totals r).

Definition set__files (v : list string) (r : PackRunner) : PackRunner :=
  mkPackRunner (mod_blacklist r) (file_blacklist r) (installed r) (stdlib r)
    (_lsof_start r) (Some v) (_lsof_stop r) (_totals r).

Definition set__lsof_stop (v : gset string) (r : PackRunner) : PackRunner :=
  mkPackRunner (mod_blacklist r) (file_blacklist r) (installed r) (stdlib r)
    (_lsof_start r) (_files r) (Some v) (_totals r).

Definition set__totals (v : gmap string Z) (r : PackRunner) : PackRunner :=
  mkPackRunner (mod_blacklist r) (file_blacklist r) (installed r) (stdlib r)
    (_lsof_start r) (_files r) (_lsof_stop r) (Some v).

(** *** Statements: a state that survives exceptions *)

Definition M (A : Type) : Type := World -> result A * World.

Definition ret {A} (a : A) : M A := fun w => (Ok a, w).

Definition raise {A} (e : exn) : M A := fun w => (Raise e, w).

Definition bind {A B} (m : M A) (k : A -> M B) : M B :=
  fun w =>
    match m w with
    | (Ok a, w') => k a w'
    | (Raise e, w') => (Raise e, w')
    end.

Notation "'let*' x ':=' m 'in' k" := (bind m (fun x => k))
  (at level 10, x pattern, m at level 100, k at level 200).

Definition modify (f : World -> World) : M unit := fun w => (Ok tt, f w).

Definition gets {A} (f : World -> A) : M A := fun w => (Ok (f w), w).

(** Reading an attribute that may not have been assigned yet. *)
Definition getattr {A} (f : PackRunner -> option A) : M A :=
  fun w =>
    match f (self w) with
    | Some a => (Ok a, w)
    | None => (Raise AttributeError, w)
    end.

Definition lift {A} (r : result A) : M A := fun w => (r, w).

(** A generator expression consumed in order: [[f(x) for x in xs]]. *)
Fixpoint for_each {A B} (f : A -> M B) (xs : list A) : M (list B) :=
  match xs with
  | [] => ret []
  | x :: xs' =>
      let* y := f x in
      let* ys := for_each f xs' in
      ret (y :: ys)
  end.

(* ===================================================================== *)
(** ** File-system calls *)
(* ===================================================================== *)

Module os.

Definition exists_ (d : gmap string node) (p : string) : bool :=
  match d !! p with Some _ => true | None => false end.

Definition isfile (d : gmap string node) (p : string) : bool :=
  match d !! p with Some (File _) => true | _ => false end.

Definition isdir (d : gmap string node) (p : string) : bool :=
  match d !! p with Some Dir => true | _ => false end.

(** [st_size] reported for a directory. *)
Definition dir_st_size : Z := 4096.

Definition getsize (d : gmap string node) (p : string) : result Z :=
  match d !! p with
  | Some (File data) => Ok (Z.of_nat (String.length data))
  | Some Dir => Ok dir_st_size
  | None => Raise FileNotFoundError
  end.

(** [os.mkdir(name)] *)
Definition mkdir (name : string) (d : gmap string node)
    : result (gmap string node) :=
  if exists_ d name then Raise FileExistsError
  else
    match d !! (fst (posixpath.split name)) with
    | Some Dir => Ok (<[name := Dir]> d)
    | Some (File _) => Raise NotADirectoryError
    | None => Raise FileNotFoundError
    end.

(** [os.makedirs(name)] with [exist_ok=False]; the recursion is on the
    head of the path, which is shorter than the path. *)
Fixpoint makedirs_rec (fuel : nat) (name : string) (d : gmap string node)
    : result (gmap string node) :=
  match fuel with
  | O => Raise OSError
  | S fuel' =>
      let '(head, tail) := posixpath.split name in
      let '(head, tail) :=
        if String.eqb tail "" then posixpath.split head else (head, tail) in
      if negb (String.eqb head "") && negb (String.eqb tail "") &&
         negb (exists_ d head)
      then
        let after d' :=
          if String.eqb tail "." then Ok d' else mkdir name d' in
        match makedirs_rec fuel' head d with
        | Ok d' => after d'
        | Raise FileExistsError => after d
        | Raise e => Raise e
        end
      else mkdir name d
  end.

Definition makedirs (name : string) (d : gmap string node)
    : result (gmap string node) :=
  makedirs_rec (S (String.length name)) name d.

End os.

Module shutil.

(** [shutil.copyfile(src, dst)] *)
Definition copyfile (src dst : string) (d : gmap string node)
    : result (gmap string node) :=
  if String.eqb src dst && os.exists_ d src then Raise SameFileError
  else
    match d !! src with
    | None => Raise FileNotFoundError
    | Some Dir => Raise IsADirectoryError
    | Some (File data) =>
        match d !! dst with
        | Some Dir => Raise IsADirectoryError
        | Some (File _) => Ok (<[dst := File data]> d)
        | None =>
            match d !! (fst (posixpath.split dst)) with
            | Some Dir => Ok (<[dst := File data]> d)
            | Some (File _) => Raise NotADirectoryError
            | None => Raise FileNotFoundError
            end
        end
    end.

(** [shutil.copytree(src, dst)] with [dirs_exist_ok=False]: the
    destination is created with [os.makedirs], then every entry below
    [src] is copied below [dst]. *)
Definition copytree (src dst : string) (d : gmap string node)
    : result (gmap string node) :=
  match d !! src with
  | None => Raise FileNotFoundError
  | Some (File _) => Raise NotADirectoryError
  | Some Dir =>
      match os.makedirs dst d with
      | Raise e => Raise e
      | Ok d1 =>
          let below := src +:+ "/" in
          Ok (fold_right
                (fun '(k, n) acc =>
                   if Str.startswith k below
                   then <[dst +:+ "/" +:+
                          Str.slice_from (String.length below) k := n]> acc
                   else acc)
                d1 (map_to_list d))
      end
  end.

End shutil.

(* ===================================================================== *)
(** ** Module-level functions *)
(* ===================================================================== *)

Section Packz.
Context `{Platform}.

(** [expand(path)] *)
Definition expand (path : string) : string := realpath (expanduser path).

(** [get_installed()]: one pass over [iter_modules()]; the [try] body
    either assigns one entry or leaves [paths] as it is. *)
Definition get_installed : list (string * string) :=
  fold_left
    (fun paths name =>
       match get_filename name with
       | None => paths
       | Some fn =>
           let file_name := expand fn in
           if Str.endswith file_name "__init__.py"
           then Dict.set paths name (fst (posixpath.split file_name))
           else if Str.endswith file_name ".py"
           then Dict.set paths name file_name
           else paths
       end)
    iter_modules [].

(* ===================================================================== *)
(** ** [PackRunner] methods *)
(* ===================================================================== *)

(** [subprocess.check_output(cmd, shell=True)] *)
Definition check_output (cmd : string) : M string :=
  fun w =>
    match shell w cmd with
    | Exited rc out =>
        if rc =? 0 then (Ok out, w) else (Raise (CalledProcessError rc), w)
    | NotStarted => (Raise OSError, w)
    end.

(** [out.decode('utf-8')] *)
Definition decode (out : string) : M string :=
  match decode_utf8 out with
  | Some txt => ret txt
  | None => raise UnicodeDecodeError
  end.

Definition lsof_cmd : string :=
  "lsof -F n -p " +:+ Str.of_N getpid +:+ " | grep ^n/ | cut -c2- ".

Definition lsof : M (gset string) :=
  let cmd := lsof_cmd in
  let* out := check_output cmd in
  let* txt := decode out in
  ret (list_to_set (Str.split txt)).

(** The hook [self._trace], called by the interpreter with the file name
    of the running frame while the hook is installed. *)
Definition _trace (co_filename : string) : M unit :=
  let* on := gets settrace in
  if on : bool then
    let* files := getattr _files in
    modify (with_self (set__files (files ++ [co_filename])))
  else ret tt.

(** The interpreter entering a frame of this module: it calls the hook
    when one is installed, and removes a hook that raises. *)
Definition enter_frame : M unit :=
  fun w =>
    match _trace module_file w with
    | (Ok u, w') => (Ok u, w')
    | (Raise e, w') => (Raise e, with_settrace false w')
    end.

Definition start : M unit :=
  let* opened := lsof in
  let* _ := modify (with_self (set__lsof_start opened)) in
  let* _ := modify (with_self (set__files [])) in
  modify (with_settrace true).

(** [stop()] is entered with the hook still installed, so its own
    frame is the last one recorded. *)
Definition stop : M unit :=
  let* _ := enter_frame in
  let* _ := modify (with_settrace false) in
  let* opened := lsof in
  modify (with_self (set__lsof_stop opened)).

(** The dict comprehension [{p: m for m, p in installed.items()
    if file_name.startswith(p)}]. *)
Definition starts_of (installed : list (string * string))
    (file_name : string) : list (string * string) :=
  fold_left
    (fun acc '(m, p) =>
       if Str.startswith file_name p then Dict.set acc p m else acc)
    installed [].

Definition which_module (self : PackRunner) (file_name : string)
    : result (option (string * string)) :=
  let starts := starts_of (installed self) file_name in
  if (0 <? length starts)%nat then
    match Dict.keys starts with
    | k :: ks =>
        let start := max_from k ks in
        match Dict.get starts start with
        | Some mod_ => Ok (Some (mod_, start))
        | None => Raise KeyError
        end
    | [] => Raise ValueError
    end
  else Ok None.

(** [any(fnmatch(tail, p) for p in self.file_blacklist)], guarded by
    [self.file_blacklist is not None]. *)
Definition file_blacklisted (self : PackRunner) (file_name : string) : bool :=
  match file_blacklist self with
  | Some patterns =>
      let tail := snd (posixpath.split file_name) in
      existsb (fun p => fnmatch tail p) patterns
  | None => false
  end.

(** [self.mod_blacklist is not None and mod in self.mod_blacklist] *)
Definition mod_blacklisted (self : PackRunner) (mod_ : string) : bool :=
  match mod_blacklist self with
  | Some names => bool_decide (mod_ ∈ names)
  | None => false
  end.

(** [self._totals[mod] += size]: the [defaultdict] creates a missing
    entry when it is read, before the size is known. *)
Definition totals_add (mod_ file_name : string) : M unit :=
  let* totals := getattr _totals in
  let old := default 0 (totals !! mod_) in
  let* _ := modify (with_self (set__totals (<[mod_ := old]> totals))) in
  let* d := gets disk in
  let* size := lift (os.getsize d file_name) in
  modify (with_self (set__totals (<[mod_ := old + size]> totals))).

(** [path_map] and [copy_list] are called after [stop]: the frames the
    hook would record for their own calls when it is installed are not
    modelled, and the statements that speak of the recorded files take
    the hook to be off. *)
Definition path_map_in (no_mod : string) (file_name : string)
    : M (option string) :=
  let* self := gets self in
  if file_blacklisted self file_name then ret None
  else
    let* owner := lift (which_module self file_name) in
    match owner with
    | Some (mod_, start) =>
        if bool_decide (mod_ ∈ stdlib self) then ret None
        else if mod_blacklisted self mod_ then ret None
        else
          let head := fst (posixpath.split start) in
          let copy_to :=
            Str.slice_from (String.length head + 1) file_name in
          let* _ := totals_add mod_ file_name in
          ret (Some copy_to)
    | None =>
        let copy_to :=
          posixpath.join no_mod (snd (posixpath.split file_name)) in
        ret (Some copy_to)
    end.

(** [path_map(file_name)] with the default [no_mod='lib']. *)
Definition path_map (file_name : string) : M (option string) :=
  path_map_in "lib" file_name.

(** [[c for c in copies if c[1] is not None]] *)
Definition not_none (copies : list (string * option string))
    : list (string * string) :=
  omap (fun c => match snd c with
                 | Some dst => Some (fst c, dst)
                 | None => None
                 end) copies.

(** [copy_list()].  Python does not fix the order in which a [set] is
    iterated; [elements] is one such order, and the statements about
    [copy_list] below use of it only that it lists every member once. *)
Definition copy_list : M (list (string * string)) :=
  let* _ := modify (with_self (set__totals ∅)) in
  let* files := getattr _files in
  let* d := gets disk in
  let used :=
    map expand (filter (fun f => os.isfile d f = true)
                       (elements (list_to_set files : gset string))) in
  let* lsof_stop := getattr _lsof_stop in
  let* lsof_start := getattr _lsof_start in
  let opened :=
    map expand (filter (fun f => os.isfile d f = true)
                       (elements (lsof_stop ∖ lsof_start))) in
  let* from_opened :=
    for_each (fun f => let* dst := path_map f in ret (f, dst)) opened in
  let* from_used :=
    for_each (fun f => let* dst := path_map f in ret (f, dst)) used in
  let copies := [] ++ from_opened ++ from_used in
  ret (not_none copies).

(** One turn of the loop of [copy]. *)
Definition copy_entry (build : string) (n : nat)
    (entry : nat * (string * string)) : M unit :=
  let '(i, (src, dst)) := entry in
  let* _ := modify (print (Copying i n dst)) in
  let dst_full := posixpath.join build dst in
  let parent := fst (posixpath.split dst_full) in
  let* d := gets disk in
  let* _ :=
    if negb (os.isdir d parent) then
      let* d' := lift (os.makedirs parent d) in
      modify (with_disk d')
    else ret tt in
  let* d := gets disk in
  if os.isdir d src then
    let* d' := lift (shutil.copytree src dst_full d) in
    modify (with_disk d')
  else
    let* d' := lift (shutil.copyfile src dst_full d) in
    modify (with_disk d').

Definition copy (build_path : string) : M unit :=
  let* copies := copy_list in
  let* sizes :=
    for_each (fun f => let* d := gets disk in lift (os.getsize d (fst f)))
             copies in
  let size := fold_left Z.add sizes 0 in
  let* _ := modify (print (TotalSize size)) in
  let build := expand build_path in
  let* _ :=
    for_each (copy_entry build (length copies))
             (zip (seq 0 (length copies)) copies) in
  ret tt.

End Packz.

(* ===================================================================== *)
(** ** A concrete platform and concrete runs *)
(* ===================================================================== *)

(** Shell-style matching for patterns made of [*], [?] and literal
    characters, the patterns the module is configured with. *)
Inductive glob : Type :=
  | GStar
  | GAny
  | GLit (c : ascii).

Fixpoint glob_of (pat : string) : list glob :=
  match pat with
  | EmptyString => []
  | String c pat' =>
      (if Ascii.eqb c "*" then GStar
       else if Ascii.eqb c "?" then GAny
       else GLit c) :: glob_of pat'
  end.

Fixpoint glob_match (g : list glob) (name : string) : bool :=
  match g with
  | [] => String.eqb name ""
  | GStar :: g' =>
      (fix star (name : string) : bool :=
         glob_match g' name ||
         match name with
         | EmptyString => false
         | String _ name' => star name'
         end) name
  | GAny :: g' =>
      match name with
      | EmptyString => false
      | String _ name' => glob_match g' name'
      end
  | GLit c :: g' =>
      match name with
      | EmptyString => false
      | String a name' => Ascii.eqb a c && glob_match g' name'
      end
  end.

Definition wildcard (name pat : string) : bool :=
  glob_match (glob_of pat) name.

(** Decoding of output that is plain ASCII; a byte above 127 is refused. *)
Fixpoint decode_ascii (out : string) : option string :=
  match out with
  | EmptyString => Some EmptyString
  | String c out' =>
      if (N_of_ascii c <? 128)%N
      then option_map (String c) (decode_ascii out')
      else None
  end.

Module Demo.

(** A machine with no symbolic links and no [~] in the paths used, three
    importable units: a package, a single-file module and a compiled
    extension module. *)
Definition platform : Platform := {|
  expanduser := fun p => p;
  realpath := fun p => p;
  fnmatch := wildcard;
  getpid := 4242%N;
  iter_modules := ["pkg"; "single"; "_ext"];
  get_filename := fun name =>
    if String.eqb name "pkg" then Some "/site/pkg/__init__.py"
    else if String.eqb name "single" then Some "/site/single.py"
    else if String.eqb name "_ext"
    then Some "/site/_ext.cpython-311-x86_64-linux-gnu.so"
    else None;
  decode_utf8 := decode_ascii;
  module_file := "/opt/packz/packz.py";
|}.

Definition runner (mods files : option (list string))
    (index : list (string * string)) : PackRunner :=
  mkPackRunner mods files index ∅ None None None None.

(** A stopped runner: [traced] was recorded by the hook, the two
    snapshots are [before] and [after]. *)
Definition stopped (mods files : option (list string))
    (index : list (string * string)) (traced : list string)
    (before after : gset string) : PackRunner :=
  mkPackRunner mods files index ∅
    (Some before) (Some traced) (Some after) None.

Definition tree : gmap string node :=
  list_to_map
    [("/", Dir); ("/a", Dir); ("/a/pkg", Dir);
     ("/a/pkg/mod.py", File "import os");
     ("/a/pkg/config_secret.json", File "{}");
     ("/x", Dir); ("/x/a.txt", File "first");
     ("/y", Dir); ("/y/a.txt", File "second file")].

Definition quiet_shell (cmd : string) : completed := Exited 0 "".

(** A machine without the program [lsof]. *)
Definition no_lsof_shell (cmd : string) : completed := sh_pipeline Absent.

(** What [lsof -F n] writes for a process with one open file whose name
    holds the byte 255, which no UTF-8 text contains. *)
Definition odd_listing : string :=
  "p4242" +:+ String "010" ("f3" +:+ String "010"
    ("n/tmp/" +:+ String "255" (String "010" ""))).

Definition odd_name_shell (cmd : string) : completed :=
  sh_pipeline (Ran 0 odd_listing).

Definition world (r : PackRunner) (sh : string -> completed) : World :=
  mkWorld r tree sh false [].

(** [/a/pkg/mod.py] was both executed and left open. *)
Definition both : World :=
  world (stopped None None [("pkg", "/a/pkg")]
           ["/a/pkg/mod.py"] ∅ {["/a/pkg/mod.py"]})
        quiet_shell.

(** Two files outside every unit, with the same base name, were opened. *)
Definition same_name : World :=
  world (stopped None None [("pkg", "/a/pkg")]
           [] ∅ {["/x/a.txt"; "/y/a.txt"]})
        quiet_shell.


Definition secret : World :=
  world (stopped None (Some ["*secret*"]) [("pkg", "/a/pkg")]
           [] ∅ ∅)
        quiet_shell.

(** A runner inside [copy_list], its ledger already holding an entry. *)
Definition ledgered : World :=
  world (mkPackRunner None None [("pkg", "/a/pkg")] {["os"]}
           None None None (Some {["numpy" := 7]}))
        quiet_shell.

Definition nested : PackRunner :=
  runner None None [("pkg", "/a/pkg"); ("pkg.sub", "/a/pkg/sub")].

End Demo.

(* ===================================================================== *)
(** ** Notions used in the statements *)
(* ===================================================================== *)

(** The Size Ledger entry of a unit, when the ledger exists. *)
Definition ledger (w : World) (name : string) : option Z :=
  match _totals (self w) with
  | Some totals => totals !! name
  | None => None
  end.

(** The first path segment of a relative path: what precedes the first
    separator. *)
Fixpoint first_segment (p : string) : string :=
  match p with
  | EmptyString => EmptyString
  | String c p' =>
      if Ascii.eqb c posixpath.sep then EmptyString
      else String c (first_segment p')
  end.

(** [os.path.basename] and [os.path.dirname] *)
Definition basename (p : string) : string := snd (posixpath.split p).
Definition dirname (p : string) : string := fst (posixpath.split p).

Section Notions.
Context `{Platform}.

(** The open-handle query failed: there is no program [lsof], or it
    exited with a status other than 0. *)
Definition query_failed (t : tool) : Prop :=
  match t with
  | Absent => True
  | Ran status _ => status <> 0
  end.


(** The value [path_map] returns when it returns: it is decided by the
    configuration of the runner and the index alone. *)
Definition destination (self : PackRunner) (file_name : string)
    : option string :=
  if file_blacklisted self file_name then None
  else
    match which_module self file_name with
    | Ok (Some (mod_, start)) =>
        if bool_decide (mod_ ∈ stdlib self) then None
        else if mod_blacklisted self mod_ then None
        else Some (Str.slice_from (String.length (dirname start) + 1)
                     file_name)
    | Ok None => Some (posixpath.join "lib" (basename file_name))
    | Raise _ => None
    end.

(** The state without the ledger attribute. *)
Definition forget_totals (w : World) : World :=
  with_self
    (fun r =>
       mkPackRunner (mod_blacklist r) (file_blacklist r) (installed r)
         (stdlib r) (_lsof_start r) (_files r) (_lsof_stop r) None)
    w.

(** The files [copy_list] classifies, in the order it does: those of
    the snapshot difference, then the executed ones. *)
Definition opened_files (w : World) (before after : gset string)
    : list string :=
  map expand (filter (fun f => os.isfile (disk w) f = true)
                     (elements (after ∖ before))).

Definition used_files (w : World) (files : list string) : list string :=
  map expand (filter (fun f => os.isfile (disk w) f = true)
                     (elements (list_to_set files : gset string))).

End Notions.

(* ===================================================================== *)
(** ** The rest of the module: [stdlib], [__init__] and the main block *)
(* ===================================================================== *)

Module packz.

(** [stdlib(installed)]: the names of the units below the directory of
    [collections] and not below its [site-packages]. *)
Definition stdlib (installed : list (string * string))
    : result (gset string) :=
  match Dict.get installed "collections" with
  | None => Raise KeyError
  | Some root =>
      let std_root := fst (posixpath.split root) in
      let std_site := posixpath.join std_root "site-packages" in
      Ok (list_to_set
            (map fst
               (List.filter
                  (fun mp => Str.startswith (snd mp) std_root &&
                             negb (Str.startswith (snd mp) std_site))
                  installed)))
  end.

End packz.

Section Runner.
Context `{Platform}.

(** [PackRunner.__init__(mod_blacklist, file_blacklist)] *)
Definition __init__ (mod_blacklist file_blacklist : option (list string))
    : result PackRunner :=
  let installed := get_installed in
  match packz.stdlib installed with
  | Ok std =>
      Ok (mkPackRunner mod_blacklist file_blacklist installed std
            None None None None)
  | Raise e => Raise e
  end.

(** The interpreter calling the hook for a sequence of frames. *)
Definition traced (co_filenames : list string) : M unit :=
  let* _ := for_each _trace co_filenames in
  ret tt.

(** The block under [if __name__ == '__main__'], [app] standing for
    [import app; app.do()]. *)
Definition main (app : M unit) : M unit :=
  fun w =>
    match __init__ (Some ["fcl"]) (Some ["*assimp*"]) with
    | Raise e => (Raise e, w)
    | Ok runner =>
        (let* _ := start in
         let* _ := app in
         let* _ := stop in
         copy "~/packz_build") (with_self (fun _ => runner) w)
    end.

End Runner.

(** The size [path_map] adds to the ledger for a file, and the unit it
    adds it to: the owner, unless the file is excluded. *)
Section Charged.
Context `{Platform}.

Definition charged (self : PackRunner) (file_name : string)
    : option string :=
  if file_blacklisted self file_name then None
  else
    match which_module self file_name with
    | Ok (Some (mod_, _)) =>
        if bool_decide (mod_ ∈ stdlib self) then None
        else if mod_blacklisted self mod_ then None
        else Some mod_
    | _ => None
    end.

(** The sizes of the files of a list that are charged to unit [name],
    added up; a file listed twice counts twice. *)
Fixpoint charged_size (self : PackRunner) (d : gmap string node)
    (name : string) (files : list string) : Z :=
  match files with
  | [] => 0
  | f :: files' =>
      (if bool_decide (charged self f = Some name)
       then match os.getsize d f with Ok size => size | Raise _ => 0 end
       else 0) + charged_size self d name files'
  end.

End Charged.

Module Demo2.

(** A platform whose standard library is in [/usr/lib/python3], with one
    package in its [site-packages]. *)
Definition platform : Platform := {|
  expanduser := fun p => p;
  realpath := fun p => p;
  fnmatch := wildcard;
  getpid := 4242%N;
  iter_modules := ["collections"; "os"; "numpy"; "broken"; "collections"];
  get_filename := fun name =>
    if String.eqb name "collections"
    then Some "/usr/lib/python3/collections/__init__.py"
    else if String.eqb name "os" then Some "/usr/lib/python3/os.py"
    else if String.eqb name "numpy"
    then Some "/usr/lib/python3/site-packages/numpy/__init__.py"
    else None;
  decode_utf8 := decode_ascii;
  module_file := "/opt/packz/packz.py";
|}.

Definition index : list (string * string) :=
  [("collections", "/usr/lib/python3/collections");
   ("os", "/usr/lib/python3/os.py");
   ("numpy", "/usr/lib/python3/site-packages/numpy")].

(** Two units registered with the same root. *)
Definition tied : PackRunner :=
  Demo.runner None None [("first", "/a/pkg"); ("second", "/a/pkg")].

(** A unit installed directly below the root directory. *)
Definition top_level : World :=
  with_disk (<["/pkg/mod.py" := File "pass"]> (<["/pkg" := Dir]> Demo.tree))
    (Demo.world (mkPackRunner None None [("pkg", "/pkg")] ∅
                   None None None (Some ∅))
                Demo.quiet_shell).

(** An index with a directory next to the standard library whose name
    extends the name of the library directory. *)
Definition sibling_index : list (string * string) :=
  [("collections", "/usr/lib/python3/collections");
   ("vendored", "/usr/lib/python3-local/vendored")].

Definition listing_shell (cmd : string) : completed :=
  Exited 0 ("/a/pkg/mod.py" +:+ String "010" "").

(** A session in progress: started, one frame recorded, the hook still
    installed, and by now an open file whose name is not UTF-8. *)
Definition recording : World :=
  mkWorld (mkPackRunner None None [("pkg", "/a/pkg")] ∅
             (Some ∅) (Some ["/a/pkg/mod.py"]) None None)
    Demo.tree Demo.odd_name_shell true [].

(** A runner fresh from [__init__]. *)
Definition fresh : World :=
  Demo.world (Demo.runner None None [("pkg", "/a/pkg")]) Demo.quiet_shell.

End Demo2.

(* ===================================================================== *)
(** * Properties *)
(* ===================================================================== *)

(** ** Strings *)

Lemma string_app_nil_r (s : string) : s +:+ "" = s.
Proof.
  induction s as [|c s IH]; [reflexivity|].
  change (String c s +:+ "") with (String c (s +:+ "")). by rewrite IH.
Qed.

Lemma string_app_cons (c : ascii) (s t : string) :
  String c s +:+ t = String c (s +:+ t).
Proof. reflexivity. Qed.

Lemma string_app_assoc (a b c : string) : (a +:+ b) +:+ c = a +:+ b +:+ c.
Proof.
  induction a as [|x a IH]; [reflexivity|].
  rewrite !string_app_cons. by rewrite IH.
Qed.

Lemma string_length_app (a b : string) :
  String.length (a +:+ b) = (String.length a + String.length b)%nat.
Proof.
  induction a as [|x a IH]; [reflexivity|].
  rewrite string_app_cons. simpl. by rewrite IH.
Qed.

Lemma startswith_app (s p : string) :
  Str.startswith s p = true <-> exists r, s = p +:+ r.
Proof.
  unfold Str.startswith. revert s.
  induction p as [|c p IH]; intros s.
  - split; [intros _; by exists s | intros _; by destruct s].
  - destruct s as [|a s]; simpl.
    + split; [done | intros [r Hr]; discriminate Hr].
    + destruct (ascii_dec c a) as [->|Hne].
      * rewrite IH. split; intros [r Hr]; exists r.
        -- by rewrite string_app_cons, Hr.
        -- rewrite string_app_cons in Hr. by injection Hr.
      * split; [done | intros [r Hr]].
        rewrite string_app_cons in Hr. injection Hr as Hc _. congruence.
Qed.

Lemma startswith_refl_app (p r : string) : Str.startswith (p +:+ r) p = true.
Proof. apply startswith_app. by exists r. Qed.

Lemma slice_from_app (a b : string) :
  Str.slice_from (String.length a) (a +:+ b) = b.
Proof. induction a as [|x a IH]; [by destruct b | exact IH]. Qed.

Lemma ascii_compare_refl (c : ascii) : Ascii.compare c c = Eq.
Proof. apply N.compare_refl. Qed.

(** Among the prefixes of one string, the lexicographic order is the
    order of the lengths. *)
Lemma gt_prefixes (f x y : string) :
  Str.startswith f x = true -> Str.startswith f y = true ->
  Str.gt x y = (String.length y <? String.length x)%nat.
Proof.
  unfold Str.startswith, Str.gt. revert x y.
  induction f as [|c f IH]; intros [|a x] [|b y]; simpl; try done.
  destruct (ascii_dec a c) as [->|]; [|done].
  destruct (ascii_dec b c) as [->|]; [|done].
  intros Hx Hy. rewrite ascii_compare_refl. by apply IH.
Qed.

Lemma prefixes_same_length (f x y : string) :
  Str.startswith f x = true -> Str.startswith f y = true ->
  String.length x = String.length y -> x = y.
Proof.
  unfold Str.startswith. revert x y.
  induction f as [|c f IH]; intros [|a x] [|b y]; simpl; try done.
  destruct (ascii_dec a c) as [->|]; [|done].
  destruct (ascii_dec b c) as [->|]; [|done].
  intros Hx Hy [= Hl]. f_equal. by apply IH.
Qed.

(** ** Dictionaries *)

Section DictFacts.
Context {K V : Type} `{EqDecision K}.
Implicit Types (d : list (K * V)) (k : K) (v : V).

Lemma get_set_eq d k v : Dict.get (Dict.set d k v) k = Some v.
Proof.
  induction d as [|[k' v'] d IH]; simpl.
  - by rewrite decide_True.
  - destruct (decide (k = k')) as [->|Hne]; simpl.
    + by rewrite decide_True.
    + by rewrite decide_False.
Qed.

Lemma get_set_ne d k k' v :
  k <> k' -> Dict.get (Dict.set d k v) k' = Dict.get d k'.
Proof.
  intros Hne. induction d as [|[k0 v0] d IH]; simpl.
  - by rewrite decide_False.
  - destruct (decide (k = k0)) as [->|Hk]; simpl.
    + by rewrite !decide_False.
    + destruct (decide (k' = k0)); [done | exact IH].
Qed.

Lemma get_elem_of d k v : Dict.get d k = Some v -> (k, v) ∈ d.
Proof.
  induction d as [|[k' v'] d IH]; simpl; [done|].
  destruct (decide (k = k')) as [->|Hne].
  - intros [= ->]. apply elem_of_cons. by left.
  - intros Hg. apply elem_of_cons. right. by apply IH.
Qed.

Lemma keys_get d k : k ∈ Dict.keys d -> exists v, Dict.get d k = Some v.
Proof.
  unfold Dict.keys. induction d as [|[k' v'] d IH]; simpl.
  - by intros ?%elem_of_nil.
  - intros [->|Hin]%elem_of_cons.
    + exists v'. by rewrite decide_True.
    + destruct (decide (k = k')); [by eexists | by apply IH].
Qed.

Lemma elem_of_set d k v k' v' :
  (k', v') ∈ Dict.set d k v -> (k', v') = (k, v) \/ (k', v') ∈ d.
Proof.
  induction d as [|[k0 v0] d IH]; simpl.
  - intros ->%list_elem_of_singleton. by left.
  - destruct (decide (k = k0)) as [->|Hne].
    + intros [->|Hin]%elem_of_cons; [by left | right].
      apply elem_of_cons. by right.
    + intros [->|Hin]%elem_of_cons.
      * right. apply elem_of_cons. by left.
      * destruct (IH Hin) as [->|Hd]; [by left | right].
        apply elem_of_cons. by right.
Qed.

Lemma keys_set d k v k' :
  k' ∈ Dict.keys (Dict.set d k v) <-> k' = k \/ k' ∈ Dict.keys d.
Proof.
  unfold Dict.keys. induction d as [|[k0 v0] d IH]; simpl.
  - rewrite list_elem_of_singleton, elem_of_nil. tauto.
  - destruct (decide (k = k0)) as [->|Hne]; simpl.
    + rewrite !elem_of_cons. tauto.
    + rewrite !elem_of_cons, IH. tauto.
Qed.

End DictFacts.

(** ** [which_module] *)

Section WhichModule.

(** One turn of the dict comprehension of [which_module]. *)
Local Abbreviation step f :=
  (fun acc '(m, p) =>
     if Str.startswith f p then Dict.set acc p m else acc).

Lemma starts_fold_sound (f : string) (l acc : list (string * string)) p m :
  (p, m) ∈ fold_left (step f) l acc ->
  (p, m) ∈ acc \/ ((m, p) ∈ l /\ Str.startswith f p = true).
Proof.
  revert acc. induction l as [|[m0 p0] l IH]; intros acc; simpl.
  - by left.
  - intros Hin. destruct (IH _ Hin) as [Hacc|[Hl Hp]].
    + destruct (Str.startswith f p0) eqn:Hs.
      * destruct (elem_of_set _ _ _ _ _ Hacc) as [[= -> ->]|Hd].
        -- right. split; [apply elem_of_cons; by left | done].
        -- by left.
      * by left.
    + right. split; [apply elem_of_cons; by right | done].
Qed.

Lemma starts_fold_keys (f : string) (l acc : list (string * string)) p :
  p ∈ Dict.keys acc \/ (exists m, (m, p) ∈ l /\ Str.startswith f p = true) ->
  p ∈ Dict.keys (fold_left (step f) l acc).
Proof.
  revert acc. induction l as [|[m0 p0] l IH]; intros acc; simpl.
  - intros [Hacc|(m & Hl & _)]; [done | by apply elem_of_nil in Hl].
  - intros Hor. apply IH.
    destruct Hor as [Hacc|(m & Hl & Hp)].
    + left. destruct (Str.startswith f p0); [|done].
      apply keys_set. by right.
    + apply elem_of_cons in Hl as [[= -> ->]|Hl].
      * left. rewrite Hp. apply keys_set. by left.
      * right. by exists m.
Qed.

Lemma starts_of_sound (idx : list (string * string)) (f p m : string) :
  (p, m) ∈ starts_of idx f -> (m, p) ∈ idx /\ Str.startswith f p = true.
Proof.
  intros Hin. destruct (starts_fold_sound _ _ _ _ _ Hin) as [Hnil|Hok].
  - by apply elem_of_nil in Hnil.
  - done.
Qed.

Lemma starts_of_keys (idx : list (string * string)) (f p m : string) :
  (m, p) ∈ idx -> Str.startswith f p = true ->
  p ∈ Dict.keys (starts_of idx f).
Proof. intros Hin Hp. apply starts_fold_keys. right. by exists m. Qed.

(** On prefixes of one string [max] returns a longest one. *)
Lemma max_from_prefixes (f : string) (ks : list string) (k : string) :
  (forall x, x ∈ k :: ks -> Str.startswith f x = true) ->
  max_from k ks ∈ k :: ks /\
  forall x, x ∈ k :: ks ->
    (String.length x <= String.length (max_from k ks))%nat.
Proof.
  revert k. induction ks as [|y ks IH]; intros k Hall; simpl.
  - split; [apply elem_of_cons; by left|].
    intros x ->%list_elem_of_singleton. lia.
  - assert (Hk : Str.startswith f k = true)
      by (apply Hall, elem_of_cons; by left).
    assert (Hy : Str.startswith f y = true)
      by (apply Hall, elem_of_cons; right; apply elem_of_cons; by left).
    rewrite (gt_prefixes f y k Hy Hk).
    destruct (String.length k <? String.length y)%nat eqn:Hlt.
    + apply Nat.ltb_lt in Hlt.
      destruct (IH y) as [Hin Hmax].
      { intros x Hx. apply Hall, elem_of_cons. by right. }
      split; [apply elem_of_cons; by right|].
      intros x [->|Hx]%elem_of_cons; [|by apply Hmax].
      specialize (Hmax y (proj2 (elem_of_cons _ _ _) (or_introl eq_refl))).
      lia.
    + apply Nat.ltb_ge in Hlt.
      destruct (IH k) as [Hin Hmax].
      { intros x [->|Hx]%elem_of_cons; [done|].
        apply Hall, elem_of_cons. right. apply elem_of_cons. by right. }
      split.
      * apply elem_of_cons in Hin as [->|Hin].
        -- apply elem_of_cons. by left.
        -- apply elem_of_cons. right. apply elem_of_cons. by right.
      * intros x [->|[->|Hx]%elem_of_cons]%elem_of_cons.
        -- apply Hmax, elem_of_cons. by left.
        -- specialize (Hmax k (proj2 (elem_of_cons _ _ _) (or_introl eq_refl))).
           lia.
        -- apply Hmax, elem_of_cons. by right.
Qed.

(** What [which_module] returns when some root is a prefix of the file
    name; shared by the statements below. *)
Lemma which_module_some (self : PackRunner) (file_name m p : string) :
  (m, p) ∈ installed self -> Str.startswith file_name p = true ->
  exists mod_ start,
    which_module self file_name = Ok (Some (mod_, start)) /\
    (mod_, start) ∈ installed self /\
    Str.startswith file_name start = true /\
    forall m' p', (m', p') ∈ installed self ->
      Str.startswith file_name p' = true ->
      (String.length p' <= String.length start)%nat.
Proof.
  intros Hin Hp. unfold which_module.
  pose proof (starts_of_keys _ _ _ _ Hin Hp) as Hkey.
  destruct (Dict.keys (starts_of (installed self) file_name))
    as [|k ks] eqn:Hks.
  { by apply elem_of_nil in Hkey. }
  assert (Hlen : (0 <? length (starts_of (installed self) file_name))%nat
                 = true).
  { apply Nat.ltb_lt. unfold Dict.keys in Hks.
    destruct (starts_of (installed self) file_name); [done | simpl; lia]. }
  rewrite Hlen.
  assert (Hall : forall x, x ∈ k :: ks -> Str.startswith file_name x = true).
  { intros x Hx. rewrite <- Hks in Hx.
    destruct (keys_get _ _ Hx) as [v Hv].
    by destruct (starts_of_sound _ _ _ _ (get_elem_of _ _ _ Hv)). }
  destruct (max_from_prefixes file_name ks k Hall) as [Hmem Hmax].
  rewrite <- Hks in Hmem.
  destruct (keys_get _ _ Hmem) as [v Hv]. rewrite Hv.
  destruct (starts_of_sound _ _ _ _ (get_elem_of _ _ _ Hv)) as [Hv1 Hv2].
  exists v, (max_from k ks). repeat split; try done.
  intros m' p' Hin' Hp'. apply Hmax. rewrite <- Hks.
  by eapply starts_of_keys.
Qed.

Lemma which_module_none (self : PackRunner) (file_name : string) :
  (forall m p, (m, p) ∈ installed self ->
     Str.startswith file_name p = false) ->
  which_module self file_name = Ok None.
Proof.
  intros Hno. unfold which_module.
  destruct (starts_of (installed self) file_name) as [|[p m] d] eqn:Hs.
  - done.
  - assert (Hin : (p, m) ∈ starts_of (installed self) file_name)
      by (rewrite Hs; apply elem_of_cons; by left).
    destruct (starts_of_sound _ _ _ _ Hin) as [Hi Hp].
    rewrite (Hno _ _ Hi) in Hp. discriminate.
Qed.

Lemma which_module_inv (self : PackRunner) (file_name mod_ start : string) :
  which_module self file_name = Ok (Some (mod_, start)) ->
  (mod_, start) ∈ installed self /\ Str.startswith file_name start = true.
Proof.
  unfold which_module.
  destruct (0 <? length _)%nat; [|done].
  destruct (Dict.keys _) as [|k ks]; [done|].
  destruct (Dict.get _ _) as [v|] eqn:Hv; [|done].
  intros [= <- <-]. by apply starts_of_sound, get_elem_of.
Qed.

(** C3. Whenever the root of some unit [(m, p)] of the index is a prefix
    of the file name, [which_module] returns a unit of the index whose
    root is a prefix of the file name and is at least as long as [p]:
    the longest matching root wins.  The root returned is not
    lexicographically below any matching root, and a matching root of the
    same length is that root: the lexicographic maximum the code takes
    is the longest prefix. *)
Theorem which_module_longest_prefix
    (self : PackRunner) (file_name m p : string) :
  (m, p) ∈ installed self ->
  Str.startswith file_name p = true ->
  exists mod_ start,
    which_module self file_name = Ok (Some (mod_, start)) /\
    (mod_, start) ∈ installed self /\
    Str.startswith file_name start = true /\
    (String.length p <= String.length start)%nat /\
    Str.gt p start = false /\
    (String.length p = String.length start <-> p = start).
Proof.
  intros Hin Hp.
  destruct (which_module_some self file_name m p Hin Hp)
    as (mod_ & start & Hw & Hi & Hs & Hmax).
  exists mod_, start. repeat split; try done.
  - by eapply Hmax.
  - rewrite (gt_prefixes file_name p start Hp Hs).
    apply Nat.ltb_ge. by eapply Hmax.
  - by apply (prefixes_same_length file_name).
  - by intros ->.
Qed.


End WhichModule.

(** The example of the specification: with [pkg] at [/a/pkg] and
    [pkg.sub] at [/a/pkg/sub], the file [/a/pkg/sub/x.py] belongs to
    [pkg.sub]. *)
Lemma which_module_longest_prefix_witness :
  which_module Demo.nested "/a/pkg/sub/x.py"
  = Ok (Some ("pkg.sub", "/a/pkg/sub")).
Proof.
  destruct (which_module_longest_prefix Demo.nested "/a/pkg/sub/x.py"
              "pkg.sub" "/a/pkg/sub")
    as (mod_ & start & Hw & Hi & _ & Hlen & _).
  - apply elem_of_cons. right. apply elem_of_cons. by left.
  - reflexivity.
  - rewrite Hw. simpl in Hi.
    apply elem_of_cons in Hi as [[= -> ->]|Hi]; [simpl in Hlen; lia|].
    apply list_elem_of_singleton in Hi. by injection Hi as -> ->.
Defined.


(** ** Paths *)

Lemma rfind_lt (c : ascii) (s : string) :
  Str.contains c s = false -> Str.rfind c s = -1.
Proof.
  induction s as [|a s IH]; simpl; [done|].
  intros [Ha Hs]%orb_false_elim. by rewrite (IH Hs), Ha.
Qed.

Lemma rfind_app_sep (c : ascii) (a name : string) :
  Str.contains c name = false ->
  Str.rfind c (a +:+ String c name) = Z.of_nat (String.length a).
Proof.
  intros Hname. induction a as [|x a IH].
  - simpl. by rewrite (rfind_lt _ _ Hname), Ascii.eqb_refl.
  - rewrite string_app_cons. simpl Str.rfind. rewrite IH.
    destruct (0 <=? Z.of_nat (String.length a)) eqn:Hle; [simpl; lia|].
    apply Z.leb_gt in Hle. lia.
Qed.

Lemma slice_to_app (a b : string) :
  Str.slice_to (String.length a) (a +:+ b) = a.
Proof.
  induction a as [|x a IH]; [by destruct b|].
  rewrite string_app_cons. simpl. by rewrite IH.
Qed.

Lemma rstrip_snoc (c x : ascii) (q : string) :
  x <> c ->
  Str.rstrip c (q +:+ String x (String c "")) = q +:+ String x "".
Proof.
  intros Hx. induction q as [|y q IH].
  - simpl. rewrite Ascii.eqb_refl.
    by rewrite (proj2 (Ascii.eqb_neq x c) Hx).
  - rewrite !string_app_cons. simpl Str.rstrip. rewrite IH.
    by destruct q.
Qed.

Lemma snoc_not_repeat (c x : ascii) (q t : string) (n : nat) :
  x <> c -> q +:+ String x t <> Str.repeat c n.
Proof.
  intros Hx. revert n. induction q as [|y q IH]; intros [|n]; simpl; try done.
  - intros [= -> _]. done.
  - rewrite string_app_cons. intros [= _ Hq]. by eapply IH.
Qed.

(** A non-empty string that does not end with [c] ends with another
    character. *)
Lemma not_endswith_snoc (c : ascii) (s : string) :
  s <> "" -> Str.endswith s (String c "") = false ->
  exists q x, s = q +:+ String x "" /\ x <> c.
Proof.
  induction s as [|a s IH]; [done|]. intros _.
  destruct s as [|b s].
  - unfold Str.endswith. simpl.
    destruct (Ascii.eqb_spec a c) as [->|Hne]; [done|].
    intros _. by exists "", a.
  - intros Hend. destruct IH as (q & x & Hq & Hx); [done| |].
    + revert Hend. unfold Str.endswith.
      change (String.length (String a (String b s)))
        with (S (String.length (String b s))).
      change (String.length (String c "")) with 1%nat.
      simpl String.length. simpl Nat.leb.
      replace (S (S (String.length s)) - 1)%nat
        with (S (S (String.length s) - 1)) by lia.
      done.
    + exists (String a q), x. by rewrite string_app_cons, <- Hq.
Qed.

(** [os.path.split] of a path whose last separator follows a directory
    name. *)
Lemma split_parent_name (parent name : string) :
  parent <> "" ->
  Str.endswith parent "/" = false ->
  Str.contains "/" name = false ->
  posixpath.split (parent +:+ "/" +:+ name) = (parent, name).
Proof.
  intros Hne Hend Hname.
  destruct (not_endswith_snoc _ _ Hne Hend) as (q & x & -> & Hx).
  unfold posixpath.split, posixpath.sep.
  change ("/" +:+ name) with (String "/" name).
  rewrite (rfind_app_sep "/" _ name Hname).
  replace (Z.to_nat (Z.of_nat (String.length (q +:+ String x "")) + 1))
    with (String.length ((q +:+ String x "") +:+ "/")).
  2:{ rewrite string_length_app. simpl. lia. }
  replace ((q +:+ String x "") +:+ String "/" name)
    with (((q +:+ String x "") +:+ "/") +:+ name).
  2:{ by rewrite string_app_assoc. }
  rewrite slice_to_app, slice_from_app.
  rewrite string_app_assoc. change (String x "" +:+ "/") with (String x "/").
  destruct (String.eqb_spec (q +:+ String x "/") "") as [He|_].
  { by destruct q. }
  destruct (String.eqb_spec (q +:+ String x "/")
              (Str.repeat "/" (String.length (q +:+ String x "/"))))
    as [He|_].
  { by apply snoc_not_repeat in He. }
  simpl negb. simpl andb. cbv iota.
  by rewrite (rstrip_snoc "/" x q Hx).
Qed.

Lemma tail_no_sep (s : string) :
  Str.contains posixpath.sep (snd (posixpath.split s)) = false.
Proof.
  unfold posixpath.split. simpl snd.
  induction s as [|a s IH]; [done|].
  simpl Str.rfind.
  destruct (0 <=? Str.rfind posixpath.sep s) eqn:Hle.
  - apply Z.leb_le in Hle.
    replace (Z.to_nat (Str.rfind posixpath.sep s + 1 + 1))
      with (S (Z.to_nat (Str.rfind posixpath.sep s + 1))) by lia.
    exact IH.
  - apply Z.leb_gt in Hle.
    replace (Z.to_nat (Str.rfind posixpath.sep s + 1)) with 0%nat in IH
      by lia.
    destruct (Ascii.eqb_spec a posixpath.sep) as [->|Hne]; simpl.
    + exact IH.
    + simpl in IH. rewrite IH.
      by rewrite (proj2 (Ascii.eqb_neq a posixpath.sep) Hne).
Qed.

Lemma join_lib (t : string) :
  Str.contains posixpath.sep t = false ->
  posixpath.join "lib" t = "lib/" +:+ t.
Proof.
  intros Ht. unfold posixpath.join.
  assert (Hs : Str.startswith t (String posixpath.sep "") = false).
  { destruct (Str.startswith t (String posixpath.sep "")) eqn:E; [|done].
    apply startswith_app in E as [r ->]. rewrite string_app_cons in Ht.
    by simpl in Ht. }
  by rewrite Hs.
Qed.

Lemma first_segment_app (name s : string) :
  Str.contains posixpath.sep name = false ->
  first_segment (name +:+ s) = name +:+ first_segment s.
Proof.
  induction name as [|c name IH]; [done|].
  simpl. intros [Hc Hn]%orb_false_elim.
  rewrite !string_app_cons. simpl. by rewrite Hc, IH.
Qed.

(** ** File-system calls *)

Lemma slice_lengths (i : nat) (s : string) :
  (String.length (Str.slice_to i s) + String.length (Str.slice_from i s)
   = String.length s)%nat.
Proof.
  revert s. induction i as [|i IH]; intros [|c s]; simpl; try done.
  by rewrite IH.
Qed.

Lemma rstrip_length (c : ascii) (s : string) :
  (String.length (Str.rstrip c s) <= String.length s)%nat.
Proof.
  induction s as [|a s IH]; simpl; [done|].
  destruct (Str.rstrip c s) as [|b r].
  - destruct (Ascii.eqb a c); simpl; lia.
  - simpl in *. lia.
Qed.

Lemma split_lengths (p : string) :
  (String.length (fst (posixpath.split p)) +
   String.length (snd (posixpath.split p)) <= String.length p)%nat.
Proof.
  unfold posixpath.split. cbn [fst snd].
  set (i := Z.to_nat (Str.rfind posixpath.sep p + 1)).
  pose proof (slice_lengths i p) as Hs.
  pose proof (rstrip_length posixpath.sep (Str.slice_to i p)) as Hr.
  destruct (_ && _); lia.
Qed.

(** [os.makedirs] does not depend on the fuel once it exceeds the length
    of the path: the recursion always ends on its own. *)
Lemma makedirs_rec_fuel (fuel1 fuel2 : nat) (name : string)
    (d : gmap string node) :
  (String.length name < fuel1)%nat ->
  (String.length name < fuel2)%nat ->
  os.makedirs_rec fuel1 name d = os.makedirs_rec fuel2 name d.
Proof.
  revert fuel2 name.
  induction fuel1 as [|fuel1 IH]; intros [|fuel2] name H1 H2; try lia.
  cbn [os.makedirs_rec].
  pose proof (split_lengths name) as Hn.
  destruct (posixpath.split name) as [h1 t1]. cbn [fst snd] in Hn.
  assert (Hstep : forall h t,
            (String.length h + String.length t <= String.length name)%nat ->
            (if negb (h =? "")%string && negb (t =? "")%string &&
                negb (os.exists_ d h)
             then
               match os.makedirs_rec fuel1 h d with
               | Ok d' => if (t =? ".")%string then Ok d' else os.mkdir name d'
               | Raise FileExistsError =>
                   if (t =? ".")%string then Ok d else os.mkdir name d
               | Raise e => Raise e
               end
             else os.mkdir name d) =
            (if negb (h =? "")%string && negb (t =? "")%string &&
                negb (os.exists_ d h)
             then
               match os.makedirs_rec fuel2 h d with
               | Ok d' => if (t =? ".")%string then Ok d' else os.mkdir name d'
               | Raise FileExistsError =>
                   if (t =? ".")%string then Ok d else os.mkdir name d
               | Raise e => Raise e
               end
             else os.mkdir name d)).
  { intros h t Hht.
    destruct (String.eqb_spec t "") as [->|Ht].
    - by rewrite andb_false_r.
    - destruct (negb (h =? "")%string && negb false && negb (os.exists_ d h));
        [|done].
      assert (0 < String.length t)%nat by (destruct t; [done | simpl; lia]).
      rewrite (IH fuel2 h) by lia. done. }
  destruct (String.eqb_spec t1 "") as [->|_].
  - pose proof (split_lengths h1) as Hh.
    destruct (posixpath.split h1) as [h2 t2]. cbn [fst snd] in Hh.
    apply Hstep. simpl in Hn. lia.
  - by apply Hstep.
Qed.

(** ** [path_map] *)

Section PathMap.
Context `{Platform}.

(** [path_map] with the statements of the monad run: one equation per
    branch of the source. *)
Lemma path_map_unfold (w : World) (file_name : string) :
  path_map file_name w =
  if file_blacklisted (self w) file_name then (Ok None, w)
  else
    match which_module (self w) file_name with
    | Raise e => (Raise e, w)
    | Ok None =>
        (Ok (Some (posixpath.join "lib" (basename file_name))), w)
    | Ok (Some (mod_, start)) =>
        if bool_decide (mod_ ∈ stdlib (self w)) then (Ok None, w)
        else if mod_blacklisted (self w) mod_ then (Ok None, w)
        else
          match _totals (self w) with
          | None => (Raise AttributeError, w)
          | Some totals =>
              let old := default 0 (totals !! mod_) in
              match os.getsize (disk w) file_name with
              | Raise e =>
                  (Raise e,
                   with_self (set__totals (<[mod_ := old]> totals)) w)
              | Ok size =>
                  (Ok (Some (Str.slice_from
                               (String.length (dirname start) + 1)
                               file_name)),
                   with_self
                     (set__totals (<[mod_ := old + size]> totals)) w)
              end
          end
    end.
Proof.
  unfold path_map, path_map_in, bind, gets, lift, ret.
  destruct (file_blacklisted (self w) file_name); [done|].
  destruct (which_module (self w) file_name) as [[[mod_ start]|]|e];
    [|done|done].
  destruct (bool_decide (mod_ ∈ stdlib (self w))); [done|].
  destruct (mod_blacklisted (self w) mod_); [done|].
  unfold totals_add, bind, getattr, modify, gets, lift.
  destruct (_totals (self w)) as [totals|]; [|done].
  simpl. by destruct (os.getsize (disk w) file_name).
Qed.

(** C8. A file whose base name matches a pattern of [file_blacklist] is
    mapped to [None], whatever the index, the built-in set and the unit
    blacklist hold, and nothing else is done: the state is the one
    [path_map] was called in. *)
Theorem path_map_file_blacklist
    (w : World) (file_name : string) (patterns : list string) (p : string) :
  file_blacklist (self w) = Some patterns ->
  p ∈ patterns ->
  fnmatch (basename file_name) p = true ->
  path_map file_name w = (Ok None, w).
Proof.
  intros Hbl Hin Hmatch. rewrite path_map_unfold.
  assert (Hb : file_blacklisted (self w) file_name = true).
  { unfold file_blacklisted. rewrite Hbl.
    apply existsb_exists. exists p. split; [|done].
    by apply list_elem_of_In. }
  by rewrite Hb.
Qed.

(** C10. [path_map] leaves the whole state as it is for a file that is
    file-blacklisted, unowned, built-in or unit-blacklisted; for a file
    owned by unit [m] it changes at most the ledger attribute, no entry
    of the ledger other than that of [m], and when it returns a
    destination the entry of [m] has grown by the size of the file. *)
Theorem path_map_ledger_frame (w : World) (file_name : string) :
  let w' := snd (path_map file_name w) in
  (file_blacklisted (self w) file_name = true -> w' = w) /\
  (which_module (self w) file_name = Ok None -> w' = w) /\
  (forall m start,
     which_module (self w) file_name = Ok (Some (m, start)) ->
     (m ∈ stdlib (self w) \/ mod_blacklisted (self w) m = true -> w' = w) /\
     (w' = w \/ exists totals', w' = with_self (set__totals totals') w) /\
     (forall k, k <> m -> ledger w' k = ledger w k) /\
     (forall dst, fst (path_map file_name w) = Ok (Some dst) ->
        exists size,
          os.getsize (disk w) file_name = Ok size /\
          ledger w' m = Some (default 0 (ledger w m) + size))).
Proof.
  intros w'. subst w'. rewrite path_map_unfold.
  destruct (file_blacklisted (self w) file_name) eqn:Hfb.
  { repeat split; try done. by left. }
  split; [done|]. split.
  { by intros ->. }
  intros m start ->.
  destruct (bool_decide (m ∈ stdlib (self w))) eqn:Hstd.
  { repeat split; try done. by left. }
  destruct (mod_blacklisted (self w) m) eqn:Hmb.
  { repeat split; try done. by left. }
  apply bool_decide_eq_false in Hstd.
  split; [by intros [?|?]|].
  unfold ledger.
  destruct (_totals (self w)) as [totals|] eqn:Ht.
  2:{ simpl. rewrite Ht. repeat split; try done. by left. }
  destruct (os.getsize (disk w) file_name) as [size|e]; simpl.
  - split; [right; by eexists|]. split.
    + intros k Hk. by rewrite lookup_insert_ne.
    + intros dst _. exists size. split; [done|].
      by rewrite lookup_insert_eq.
  - split; [right; by eexists|]. split; [|done].
    intros k Hk. by rewrite lookup_insert_ne.
Qed.

(** The destination of a file owned by a unit installed as
    [parent/name]. *)
Lemma path_map_owned_dst
    (w : World) (file_name mod_ parent name dst : string) :
  which_module (self w) file_name
    = Ok (Some (mod_, parent +:+ "/" +:+ name)) ->
  fst (path_map file_name w) = Ok (Some dst) ->
  parent <> "" ->
  Str.endswith parent "/" = false ->
  Str.contains "/" name = false ->
  exists rest,
    file_name = parent +:+ "/" +:+ name +:+ rest /\
    dst = name +:+ rest /\
    Str.slice_from (String.length (parent +:+ "/" +:+ name)) file_name
      = rest.
Proof.
  intros Hw Hdst Hne Hend Hname.
  destruct (which_module_inv _ _ _ _ Hw) as [_ Hpre].
  apply startswith_app in Hpre as [rest Hrest].
  exists rest. rewrite !string_app_assoc in Hrest. split; [done|].
  split.
  - rewrite path_map_unfold, Hw in Hdst.
    destruct (file_blacklisted _ _); [done|].
    destruct (bool_decide _); [done|].
    destruct (mod_blacklisted _ _); [done|].
    destruct (_totals _); [|done].
    destruct (os.getsize _ _); [|done].
    simpl in Hdst. injection Hdst as <-.
    unfold dirname. rewrite (split_parent_name _ _ Hne Hend Hname).
    simpl fst. rewrite Hrest.
    replace (String.length parent + 1)%nat
      with (String.length (parent +:+ "/")).
    2:{ rewrite string_length_app. simpl. lia. }
    rewrite <- (string_app_assoc parent "/"). by rewrite slice_from_app.
  - rewrite Hrest, <- !string_app_assoc. apply slice_from_app.
Qed.

(** C5, as the code has it. For a file owned by a unit whose root [R] is
    [parent/name], the destination is the base name of [R] followed by
    what the file name has after [R]: the first segment of the
    destination starts with [basename(R)], not with
    [basename(dirname(R))], and equals it when the file lies below [R]. *)
Theorem path_map_root_name_first
    (w : World) (P U R dst parent name : string) :
  which_module (self w) P = Ok (Some (U, R)) ->
  fst (path_map P w) = Ok (Some dst) ->
  R = parent +:+ "/" +:+ name ->
  parent <> "" ->
  Str.endswith parent "/" = false ->
  Str.contains "/" name = false ->
  basename R = name /\
  dst = name +:+ Str.slice_from (String.length R) P /\
  first_segment dst
    = name +:+ first_segment (Str.slice_from (String.length R) P).
Proof.
  intros Hw Hdst -> Hne Hend Hname.
  destruct (path_map_owned_dst _ _ _ _ _ _ Hw Hdst Hne Hend Hname)
    as (rest & HP & -> & Hrest).
  rewrite Hrest. split; [|split; [done|]].
  - unfold basename. by rewrite split_parent_name.
  - by apply first_segment_app.
Qed.

(** C2, as the code has it. Two files owned by units installed in the
    same parent directory that receive the same destination are the same
    file name; two unowned files receive the same destination exactly
    when their base names are equal. *)
Theorem path_map_collisions (w : World) (f1 f2 d1 d2 : string) :
  fst (path_map f1 w) = Ok (Some d1) ->
  fst (path_map f2 w) = Ok (Some d2) ->
  (forall m1 m2 parent n1 n2,
     which_module (self w) f1 = Ok (Some (m1, parent +:+ "/" +:+ n1)) ->
     which_module (self w) f2 = Ok (Some (m2, parent +:+ "/" +:+ n2)) ->
     parent <> "" ->
     Str.endswith parent "/" = false ->
     Str.contains "/" n1 = false ->
     Str.contains "/" n2 = false ->
     d1 = d2 -> f1 = f2) /\
  (which_module (self w) f1 = Ok None ->
   which_module (self w) f2 = Ok None ->
   (d1 = d2 <-> basename f1 = basename f2)).
Proof.
  intros H1 H2. split.
  - intros m1 m2 parent n1 n2 Hw1 Hw2 Hne Hend Hn1 Hn2 Heq.
    destruct (path_map_owned_dst _ _ _ _ _ _ Hw1 H1 Hne Hend Hn1)
      as (r1 & -> & -> & _).
    destruct (path_map_owned_dst _ _ _ _ _ _ Hw2 H2 Hne Hend Hn2)
      as (r2 & -> & -> & _).
    by rewrite Heq.
  - intros Hw1 Hw2.
    rewrite path_map_unfold, Hw1 in H1.
    rewrite path_map_unfold, Hw2 in H2.
    destruct (file_blacklisted _ f1); [done|].
    destruct (file_blacklisted _ f2); [done|].
    simpl in H1, H2. injection H1 as <-. injection H2 as <-.
    rewrite !join_lib by apply tail_no_sep.
    split; [|by intros ->].
    intros Heq. change ("lib/" +:+ basename f1 = "lib/" +:+ basename f2) in Heq.
    rewrite !string_app_cons in Heq. by injection Heq.
Qed.

End PathMap.

Lemma path_map_file_blacklist_witness :
  path_map (H := Demo.platform) "/a/pkg/config_secret.json" Demo.secret
  = (Ok None, Demo.secret).
Proof.
  apply (path_map_file_blacklist (H := Demo.platform) Demo.secret
           "/a/pkg/config_secret.json" ["*secret*"] "*secret*").
  - reflexivity.
  - apply elem_of_cons. by left.
  - reflexivity.
Defined.

Lemma path_map_ledger_frame_witness :
  snd (path_map (H := Demo.platform) "/x/a.txt" Demo.ledgered)
    = Demo.ledgered /\
  ledger (snd (path_map (H := Demo.platform) "/a/pkg/mod.py" Demo.ledgered))
    "numpy" = Some 7.
Proof.
  split.
  - apply (path_map_ledger_frame (H := Demo.platform) Demo.ledgered
             "/x/a.txt").
    reflexivity.
  - destruct (path_map_ledger_frame (H := Demo.platform) Demo.ledgered
                "/a/pkg/mod.py") as (_ & _ & Hown).
    destruct (Hown "pkg" "/a/pkg" eq_refl) as (_ & _ & Hframe & _).
    by rewrite Hframe.
Defined.

(** C5 as stated fails: for the unit [pkg] at [/a/pkg] the destination
    of [/a/pkg/mod.py] is [pkg/mod.py], whose first segment is [pkg],
    while [basename(dirname("/a/pkg"))] is [a]. *)
Lemma path_map_first_segment_counterexample :
  ~ (forall (H : Platform) (w : World) (P U R dst : string),
       which_module (self w) P = Ok (Some (U, R)) ->
       fst (path_map P w) = Ok (Some dst) ->
       first_segment dst = basename (dirname R)).
Proof.
  intros Hclaim.
  specialize (Hclaim Demo.platform Demo.ledgered
                "/a/pkg/mod.py" "pkg" "/a/pkg" "pkg/mod.py").
  assert (Hw : which_module (self Demo.ledgered) "/a/pkg/mod.py"
               = Ok (Some ("pkg", "/a/pkg"))) by reflexivity.
  assert (Hd : fst (path_map (H := Demo.platform) "/a/pkg/mod.py"
                      Demo.ledgered) = Ok (Some "pkg/mod.py"))
    by (vm_compute; reflexivity).
  specialize (Hclaim Hw Hd). vm_compute in Hclaim. discriminate Hclaim.
Qed.

Lemma path_map_root_name_first_witness :
  basename "/a/pkg" = "pkg" /\
  "pkg/mod.py" = "pkg" +:+ Str.slice_from (String.length "/a/pkg")
                             "/a/pkg/mod.py" /\
  first_segment "pkg/mod.py"
    = "pkg" +:+ first_segment (Str.slice_from (String.length "/a/pkg")
                                 "/a/pkg/mod.py").
Proof.
  apply (path_map_root_name_first (H := Demo.platform) Demo.ledgered
           "/a/pkg/mod.py" "pkg" "/a/pkg" "pkg/mod.py" "/a" "pkg").
  - reflexivity.
  - vm_compute. reflexivity.
  - reflexivity.
  - discriminate.
  - reflexivity.
  - reflexivity.
Defined.

(** C2 as stated fails: [/x/a.txt] and [/y/a.txt] are two files, neither
    owned by a unit, and both are mapped to [lib/a.txt]. *)
Lemma path_map_collision_counterexample :
  ~ (forall (H : Platform) (w : World) (f1 f2 d1 d2 : string),
       f1 <> f2 ->
       expand f1 <> expand f2 ->
       disk w !! f1 <> disk w !! f2 ->
       fst (path_map f1 w) = Ok (Some d1) ->
       fst (path_map f2 w) = Ok (Some d2) ->
       d1 <> d2).
Proof.
  intros Hclaim.
  apply (Hclaim Demo.platform Demo.same_name
           "/x/a.txt" "/y/a.txt" "lib/a.txt" "lib/a.txt");
    try discriminate; reflexivity.
Qed.

Lemma path_map_collisions_witness :
  "lib/a.txt" = "lib/a.txt" <-> basename "/x/a.txt" = basename "/y/a.txt".
Proof.
  apply (proj2 (path_map_collisions (H := Demo.platform) Demo.same_name
                  "/x/a.txt" "/y/a.txt" "lib/a.txt" "lib/a.txt"
                  eq_refl eq_refl)); reflexivity.
Defined.

(** ** [get_installed] *)

Section GetInstalled.
Context `{Platform}.

(** The body of the loop of [get_installed]. *)
Local Abbreviation record_unit :=
  (fun paths name =>
     match get_filename name with
     | None => paths
     | Some fn =>
         let file_name := expand fn in
         if Str.endswith file_name "__init__.py"
         then Dict.set paths name (fst (posixpath.split file_name))
         else if Str.endswith file_name ".py"
         then Dict.set paths name file_name
         else paths
     end).

Lemma record_unit_other (paths : list (string * string)) (n name : string) :
  n <> name ->
  Dict.get (record_unit paths n) name = Dict.get paths name.
Proof.
  intros Hne. cbv beta. destruct (get_filename n) as [fn|]; [|done].
  cbv zeta. destruct (Str.endswith (expand fn) "__init__.py").
  - by apply get_set_ne.
  - destruct (Str.endswith (expand fn) ".py"); [by apply get_set_ne | done].
Qed.

Lemma record_units_py (names : list string) (acc : list (string * string))
    (name fn : string) :
  get_filename name = Some fn ->
  Str.endswith (expand fn) "__init__.py" = false ->
  Str.endswith (expand fn) ".py" = true ->
  name ∈ names \/ Dict.get acc name = Some (expand fn) ->
  Dict.get (fold_left record_unit names acc) name = Some (expand fn).
Proof.
  intros Hfn Hinit Hpy. revert acc.
  induction names as [|n names IH]; intros acc Hor; simpl.
  - destruct Hor as [Hin|Hacc]; [by apply elem_of_nil in Hin | done].
  - apply IH. destruct (decide (n = name)) as [->|Hne].
    + right. cbv beta zeta. rewrite Hfn, Hinit, Hpy. apply get_set_eq.
    + destruct Hor as [[->|Hin]%elem_of_cons|Hacc]; [done | by left |].
      right. by rewrite record_unit_other.
Qed.

(** C6, as the code has it. A unit that [iter_modules] yields and whose
    resolved file name ends in [.py] but not in [__init__.py] is in the
    index, with that file as its root. *)
Theorem get_installed_single_py (name fn : string) :
  name ∈ iter_modules ->
  get_filename name = Some fn ->
  Str.endswith (expand fn) "__init__.py" = false ->
  Str.endswith (expand fn) ".py" = true ->
  Dict.get get_installed name = Some (expand fn).
Proof.
  intros Hin Hfn Hinit Hpy. unfold get_installed.
  apply record_units_py; auto.
Qed.

End GetInstalled.

(** C6 as stated fails: the extension module [_ext] resolves to one
    loadable file, which is no package initializer, and the index has no
    entry for it. *)
Lemma get_installed_single_file_counterexample :
  ~ (forall (H : Platform) (name fn : string),
       name ∈ iter_modules ->
       get_filename name = Some fn ->
       basename (expand fn) <> "__init__.py" ->
       Dict.get get_installed name = Some (expand fn)).
Proof.
  intros Hclaim.
  specialize (Hclaim Demo.platform "_ext"
                "/site/_ext.cpython-311-x86_64-linux-gnu.so").
  assert (Hnone : Dict.get (get_installed (H := Demo.platform)) "_ext" = None)
    by reflexivity.
  rewrite Hclaim in Hnone; [discriminate | | reflexivity | ].
  - apply elem_of_cons. right. apply elem_of_cons. right.
    apply elem_of_cons. by left.
  - vm_compute. discriminate.
Qed.

Lemma get_installed_single_py_witness :
  Dict.get (get_installed (H := Demo.platform)) "single"
  = Some "/site/single.py".
Proof.
  apply (get_installed_single_py (H := Demo.platform)
           "single" "/site/single.py").
  - apply elem_of_cons. right. apply elem_of_cons. by left.
  - reflexivity.
  - reflexivity.
  - reflexivity.
Defined.

(** ** [lsof], [start] and [stop] *)

Section Lsof.
Context `{Platform}.

Lemma lsof_unfold (w : World) :
  lsof w =
  (match shell w lsof_cmd with
   | Exited rc out =>
       if rc =? 0 then
         match decode_utf8 out with
         | Some txt => Ok (list_to_set (Str.split txt))
         | None => Raise UnicodeDecodeError
         end
       else Raise (CalledProcessError rc)
   | NotStarted => Raise OSError
   end, w).
Proof.
  unfold lsof, bind, check_output, decode.
  destruct (shell w lsof_cmd) as [rc out|]; [|done].
  destruct (rc =? 0); [|done].
  by destruct (decode_utf8 out).
Qed.




End Lsof.


(** The part of C7 that holds: on a machine without [lsof] the snapshot
    is empty and nothing is raised. *)
Example lsof_absent :
  query_failed Absent /\
  lsof (H := Demo.platform) (Demo.world Demo.nested Demo.no_lsof_shell)
  = (Ok ∅, Demo.world Demo.nested Demo.no_lsof_shell).
Proof. split; [exact I | reflexivity]. Qed.


(** ** [copy_list] *)

Section CopyList.
Context `{Platform}.

Lemma destination_forget (w : World) (f : string) :
  destination (self (forget_totals w)) f = destination (self w) f.
Proof. reflexivity. Qed.

Lemma destination_frame (w w' : World) (f : string) :
  forget_totals w' = forget_totals w ->
  destination (self w') f = destination (self w) f.
Proof.
  intros Heq. by rewrite <- (destination_forget w'), Heq.
Qed.

Lemma path_map_ok (w w' : World) (f : string) (r : option string) :
  path_map f w = (Ok r, w') ->
  r = destination (self w) f /\ forget_totals w' = forget_totals w.
Proof.
  rewrite path_map_unfold. unfold destination.
  destruct (file_blacklisted (self w) f); [by intros [= <- <-]|].
  destruct (which_module (self w) f) as [[[m start]|]|e];
    [|by intros [= <- <-]|done].
  destruct (bool_decide (m ∈ stdlib (self w))); [by intros [= <- <-]|].
  destruct (mod_blacklisted (self w) m); [by intros [= <- <-]|].
  destruct (_totals (self w)); [|done].
  destruct (os.getsize (disk w) f); [|done].
  by intros [= <- <-].
Qed.

(** A pass of [copy_list] over a list of files pairs each file with its
    destination. *)
Lemma classify_pass (xs : list string) (w w' : World)
    (ys : list (string * option string)) :
  for_each (fun f => let* dst := path_map f in ret (f, dst)) xs w
    = (Ok ys, w') ->
  ys = map (fun f => (f, destination (self w) f)) xs /\
  forget_totals w' = forget_totals w.
Proof.
  revert w ys. induction xs as [|x xs IH]; intros w ys; simpl.
  - by intros [= <- <-].
  - unfold bind at 1. unfold bind at 1.
    destruct (path_map x w) as [[r|e] w1] eqn:Hx; [|done].
    unfold ret at 1. unfold bind at 1.
    destruct (for_each _ xs w1) as [[ys'|e] w2] eqn:Hxs; [|done].
    intros [= <- <-].
    destruct (path_map_ok _ _ _ _ Hx) as [-> Hw1].
    destruct (IH _ _ Hxs) as [-> Hw2].
    split; [|congruence].
    f_equal. apply map_ext. intros f. f_equal.
    by apply destination_frame.
Qed.

(** The list [copy_list] returns. *)
Lemma copy_list_ok (w w' : World) (copies : list (string * string))
    (files : list string) (before after : gset string) :
  copy_list w = (Ok copies, w') ->
  _files (self w) = Some files ->
  _lsof_start (self w) = Some before ->
  _lsof_stop (self w) = Some after ->
  copies
  = not_none (map (fun f => (f, destination (self w) f))
                (opened_files w before after ++ used_files w files)) /\
  forget_totals w' = forget_totals w.
Proof.
  intros Hc Hf Hb Ha. revert Hc.
  unfold copy_list, bind, modify, getattr, gets.
  cbn [self with_self set__totals _files].
  rewrite Hf.
  cbn [self with_self set__totals _lsof_stop].
  rewrite Ha.
  cbn [self with_self set__totals _lsof_start disk].
  rewrite Hb.
  set (w0 := with_self (set__totals ∅) w).
  fold (opened_files w before after). fold (used_files w files).
  destruct (for_each _ (opened_files w before after) w0)
    as [[ys1|e] w1] eqn:H1; [|done].
  destruct (for_each _ (used_files w files) w1)
    as [[ys2|e] w2] eqn:H2; [|done].
  unfold ret. intros [= <- <-].
  destruct (classify_pass _ _ _ _ H1) as [-> Hw1].
  destruct (classify_pass _ _ _ _ H2) as [-> Hw2].
  split; [|by rewrite Hw2, Hw1].
  rewrite map_app. do 2 f_equal. apply map_ext. intros f. f_equal.
  by apply destination_frame.
Qed.

(** [copy_list] returns only when the three recorded attributes exist. *)
Lemma copy_list_attrs (w w' : World) (copies : list (string * string)) :
  copy_list w = (Ok copies, w') ->
  exists files before after,
    _files (self w) = Some files /\
    _lsof_start (self w) = Some before /\
    _lsof_stop (self w) = Some after.
Proof.
  unfold copy_list, bind, modify, getattr, gets.
  cbn [self with_self set__totals _files].
  destruct (_files (self w)) as [files|]; [|done].
  cbn [self with_self set__totals _lsof_stop].
  destruct (_lsof_stop (self w)) as [after|]; [|done].
  cbn [self with_self set__totals _lsof_start].
  destruct (_lsof_start (self w)) as [before|]; [|done].
  intros _. by exists files, before, after.
Qed.

(** Entries of the copy list whose source is [f]. *)
Local Abbreviation entries_of f copies :=
  (filter (fun c : string * string => fst c = f) copies).




End CopyList.

(** ** [copy] *)

Section Copy.
Context `{Platform}.

(** The line [copy] prints for an entry of the enumerated copy list. *)
Local Abbreviation line_of n :=
  (fun e : nat * (string * string) => Copying (fst e) n (snd (snd e))).

Lemma copy_entry_prints (build : string) (n : nat)
    (e : nat * (string * string)) (w w' : World) :
  copy_entry build n e w = (Ok tt, w') ->
  stdout w' = stdout w ++ [line_of n e].
Proof.
  destruct e as [i [src dst]].
  unfold copy_entry, bind, modify, gets, lift, ret.
  cbn [disk print stdout with_disk fst snd].
  destruct (negb (os.isdir (disk w) _)).
  - destruct (os.makedirs _ _) as [d1|e1]; [|done].
    cbn [disk print with_disk].
    destruct (os.isdir d1 src).
    + destruct (shutil.copytree _ _ _); [|done].
      intros Heq. injection Heq as <-. reflexivity.
    + destruct (shutil.copyfile _ _ _); [|done].
      intros Heq. injection Heq as <-. reflexivity.
  - cbn [disk print with_disk].
    destruct (os.isdir (disk w) src).
    + destruct (shutil.copytree _ _ _); [|done].
      intros Heq. injection Heq as <-. reflexivity.
    + destruct (shutil.copyfile _ _ _); [|done].
      intros Heq. injection Heq as <-. reflexivity.
Qed.

Lemma copy_loop_prints (build : string) (n : nat)
    (es : list (nat * (string * string))) (w w' : World) (us : list unit) :
  for_each (copy_entry build n) es w = (Ok us, w') ->
  stdout w' = stdout w ++ map (line_of n) es.
Proof.
  revert w us. induction es as [|e es IH]; intros w us; simpl.
  - intros [= _ <-]. by rewrite app_nil_r.
  - unfold bind at 1.
    destruct (copy_entry build n e w) as [[[]|x] w1] eqn:He; [|done].
    unfold bind at 1.
    destruct (for_each _ es w1) as [[us'|x] w2] eqn:Hes; [|done].
    intros [= _ <-].
    rewrite (IH _ _ Hes), (copy_entry_prints _ _ _ _ _ He).
    by rewrite <- app_assoc.
Qed.

Lemma sizes_pass (copies : list (string * string)) (w : World) :
  snd (for_each (fun f => let* d := gets disk in
                          lift (os.getsize d (fst f))) copies w) = w.
Proof.
  induction copies as [|c copies IH]; [done|]. simpl.
  unfold bind at 1. unfold bind at 1. unfold gets at 1. unfold lift at 1.
  destruct (os.getsize (disk w) (fst c)); [|done].
  unfold bind at 1.
  destruct (for_each _ copies w) as [[zs|x] w1]; simpl in *; by subst.
Qed.





End Copy.


(** The materialization of that run copies the file twice. *)
Example copy_twice :
  let r := copy (H := Demo.platform) "/out" Demo.both in
  fst r = Ok tt /\
  stdout (snd r)
  = [TotalSize 18; Copying 0 2 "pkg/mod.py"; Copying 1 2 "pkg/mod.py"].
Proof. vm_compute. by split. Qed.



(** What is left at the common destination is the later of the two
    sources; the earlier copy is gone. *)
Example copy_keeps_last :
  let r := copy (H := Demo.platform) "/out" Demo.same_name in
  fst r = Ok tt /\
  disk (snd r) !! "/out/lib/a.txt" = Some (File "first") /\
  stdout (snd r)
  = [TotalSize 16; Copying 0 2 "lib/a.txt"; Copying 1 2 "lib/a.txt"].
Proof. vm_compute. by repeat split. Qed.


(* ===================================================================== *)
(** * Further properties of the module *)
(* ===================================================================== *)

(** ** [stdlib] *)

Lemma startswith_app_same (a s p : string) :
  Str.startswith (a +:+ s) (a +:+ p) = Str.startswith s p.
Proof.
  unfold Str.startswith. induction a as [|c a IH]; [done|].
  rewrite !string_app_cons. simpl.
  by destruct (ascii_dec c c).
Qed.

Lemma join_dir (parent b : string) :
  parent <> "" ->
  Str.endswith parent "/" = false ->
  Str.startswith b "/" = false ->
  posixpath.join parent b = parent +:+ "/" +:+ b.
Proof.
  intros Hne Hend Hb. unfold posixpath.join, posixpath.sep.
  rewrite Hb, Hend. by destruct parent.
Qed.

(** X1. Every name [stdlib] returns is the name of a unit of the index
    whose root starts with the directory of [collections] and does not
    start with the [site-packages] directory below it: the built-in set
    is a subset of the keys of the index. *)
Theorem stdlib_sound
    (idx : list (string * string)) (std : gset string) (m : string) :
  packz.stdlib idx = Ok std ->
  m ∈ std ->
  exists root p,
    Dict.get idx "collections" = Some root /\
    (m, p) ∈ idx /\
    m ∈ Dict.keys idx /\
    Str.startswith p (dirname root) = true /\
    Str.startswith p (posixpath.join (dirname root) "site-packages")
      = false.
Proof.
  unfold packz.stdlib.
  destruct (Dict.get idx "collections") as [root|]; [|done].
  intros [= <-] Hm.
  apply elem_of_list_to_set, list_elem_of_fmap in Hm as ([m' p] & -> & Hin).
  apply list_elem_of_In, filter_In in Hin as [Hin Hcond].
  apply list_elem_of_In in Hin.
  apply andb_true_iff in Hcond as [Hroot Hsite].
  apply negb_true_iff in Hsite.
  exists root, p. repeat split; try done.
  unfold Dict.keys. apply list_elem_of_fmap. by exists (m', p).
Qed.

Lemma stdlib_complete_aux
    (idx : list (string * string)) (root m p : string) :
  Dict.get idx "collections" = Some root ->
  (m, p) ∈ idx ->
  Str.startswith p (dirname root) = true ->
  Str.startswith p (posixpath.join (dirname root) "site-packages") = false ->
  exists std, packz.stdlib idx = Ok std /\ m ∈ std.
Proof.
  intros Hroot Hin Hp Hsite. unfold packz.stdlib. rewrite Hroot.
  eexists. split; [reflexivity|].
  apply elem_of_list_to_set, list_elem_of_fmap. exists (m, p).
  split; [done|].
  apply list_elem_of_In, filter_In. split; [by apply list_elem_of_In|].
  cbn [snd]. unfold dirname in *. by rewrite Hp, Hsite.
Qed.

(** X2. Conversely, when [collections] is in the index, every unit whose
    root starts with its directory and not with the [site-packages]
    directory below it is built-in; the test is on the raw string, so a
    sibling directory whose name extends the name of the library
    directory counts as part of the library. *)
Theorem stdlib_complete
    (idx : list (string * string)) (root m p : string) :
  Dict.get idx "collections" = Some root ->
  (m, p) ∈ idx ->
  Str.startswith p (dirname root) = true ->
  Str.startswith p (posixpath.join (dirname root) "site-packages") = false ->
  exists std, packz.stdlib idx = Ok std /\ m ∈ std.
Proof. apply stdlib_complete_aux. Qed.

(** X3. [stdlib] raises exactly when the index has no unit named
    [collections], and then the exception is [KeyError]. *)
Theorem stdlib_key_error (idx : list (string * string)) :
  (Dict.get idx "collections" = None <-> packz.stdlib idx = Raise KeyError) /\
  (forall e, packz.stdlib idx = Raise e -> e = KeyError).
Proof.
  unfold packz.stdlib.
  destruct (Dict.get idx "collections") as [root|].
  - split; [split; discriminate | discriminate].
  - split; [done|]. by intros e [= <-].
Qed.

(** X4. The reference unit is itself built-in when its root is
    [parent/name] with a name that does not start with [site-packages]:
    for [collections] installed as a package directory, the built-in
    set is never empty. *)
Theorem stdlib_has_collections
    (idx : list (string * string)) (std : gset string)
    (parent name : string) :
  packz.stdlib idx = Ok std ->
  Dict.get idx "collections" = Some (parent +:+ "/" +:+ name) ->
  parent <> "" ->
  Str.endswith parent "/" = false ->
  Str.contains "/" name = false ->
  Str.startswith name "site-packages" = false ->
  "collections" ∈ std.
Proof.
  intros Hstd Hroot Hne Hend Hname Hsite.
  destruct (stdlib_complete_aux idx (parent +:+ "/" +:+ name)
              "collections" (parent +:+ "/" +:+ name)) as (std' & Hs & Hin).
  - done.
  - by apply get_elem_of.
  - unfold dirname. rewrite split_parent_name by done.
    apply startswith_refl_app.
  - unfold dirname. rewrite split_parent_name by done. simpl fst.
    rewrite join_dir by done.
    by rewrite !startswith_app_same.
  - rewrite Hstd in Hs. by injection Hs as ->.
Qed.

Lemma stdlib_sound_witness :
  exists root p,
    Dict.get Demo2.index "collections" = Some root /\
    ("os", p) ∈ Demo2.index /\
    "os" ∈ Dict.keys Demo2.index /\
    Str.startswith p (dirname root) = true /\
    Str.startswith p (posixpath.join (dirname root) "site-packages")
      = false.
Proof.
  apply (stdlib_sound Demo2.index {["collections"; "os"]} "os").
  - vm_compute. reflexivity.
  - set_solver.
Defined.

Lemma stdlib_complete_witness :
  exists std,
    packz.stdlib Demo2.sibling_index = Ok std /\ "vendored" ∈ std.
Proof.
  apply (stdlib_complete Demo2.sibling_index
           "/usr/lib/python3/collections"
           "vendored" "/usr/lib/python3-local/vendored").
  - reflexivity.
  - apply elem_of_cons. right. apply elem_of_cons. by left.
  - reflexivity.
  - reflexivity.
Defined.

Lemma stdlib_has_collections_witness :
  "collections" ∈ ({["collections"; "os"]} : gset string).
Proof.
  apply (stdlib_has_collections Demo2.index {["collections"; "os"]}
           "/usr/lib/python3" "collections").
  - vm_compute. reflexivity.
  - reflexivity.
  - discriminate.
  - reflexivity.
  - reflexivity.
  - reflexivity.
Defined.

(** ** [get_installed] and [__init__] *)

Section Index.
Context `{Platform}.

(** The body of the loop of [get_installed]. *)
Local Abbreviation record_unit :=
  (fun paths name =>
     match get_filename name with
     | None => paths
     | Some fn =>
         let file_name := expand fn in
         if Str.endswith file_name "__init__.py"
         then Dict.set paths name (fst (posixpath.split file_name))
         else if Str.endswith file_name ".py"
         then Dict.set paths name file_name
         else paths
     end).

Lemma record_unit_keeps (paths : list (string * string)) (n name : string) :
  n <> name ->
  Dict.get (record_unit paths n) name = Dict.get paths name.
Proof.
  intros Hne. cbv beta. destruct (get_filename n) as [fn|]; [|done].
  cbv zeta. destruct (Str.endswith (expand fn) "__init__.py").
  - by apply get_set_ne.
  - destruct (Str.endswith (expand fn) ".py"); [by apply get_set_ne | done].
Qed.

Lemma record_units_package (names : list string)
    (acc : list (string * string)) (name fn : string) :
  get_filename name = Some fn ->
  Str.endswith (expand fn) "__init__.py" = true ->
  name ∈ names \/ Dict.get acc name = Some (dirname (expand fn)) ->
  Dict.get (fold_left record_unit names acc) name
  = Some (dirname (expand fn)).
Proof.
  intros Hfn Hinit. revert acc.
  induction names as [|n names IH]; intros acc Hor; simpl.
  - destruct Hor as [Hin|Hacc]; [by apply elem_of_nil in Hin | done].
  - apply IH. destruct (decide (n = name)) as [->|Hne].
    + right. cbv beta zeta. rewrite Hfn, Hinit. apply get_set_eq.
    + destruct Hor as [[->|Hin]%elem_of_cons|Hacc]; [done | by left |].
      right. by rewrite record_unit_keeps.
Qed.

(** X5. A unit that [iter_modules] yields and whose resolved file name
    ends in [__init__.py] is in the index with the directory of that file
    as its root, whether or not a later turn of the loop sees the name
    again. *)
Theorem get_installed_package (name fn : string) :
  name ∈ iter_modules ->
  get_filename name = Some fn ->
  Str.endswith (expand fn) "__init__.py" = true ->
  Dict.get get_installed name = Some (dirname (expand fn)).
Proof.
  intros Hin Hfn Hinit. unfold get_installed.
  apply record_units_package; auto.
Qed.

Lemma record_units_sound (names : list string)
    (acc : list (string * string)) (name root : string) :
  Dict.get (fold_left record_unit names acc) name = Some root ->
  Dict.get acc name = Some root \/
  (name ∈ names /\
   exists fn,
     get_filename name = Some fn /\
     ((Str.endswith (expand fn) "__init__.py" = true /\
       root = dirname (expand fn)) \/
      (Str.endswith (expand fn) "__init__.py" = false /\
       Str.endswith (expand fn) ".py" = true /\
       root = expand fn))).
Proof.
  revert acc. induction names as [|n names IH]; intros acc; simpl.
  - by left.
  - intros Hget. destruct (IH _ Hget) as [Hacc|[Hin Hfn]].
    2:{ right. split; [apply elem_of_cons; by right | done]. }
    destruct (decide (n = name)) as [->|Hne].
    2:{ left. by rewrite record_unit_keeps in Hacc. }
    cbv beta zeta in Hacc.
    destruct (get_filename name) as [fn|] eqn:Hfn; [|by left].
    destruct (Str.endswith (expand fn) "__init__.py") eqn:Hinit.
    + rewrite get_set_eq in Hacc. injection Hacc as <-.
      right. split; [apply elem_of_cons; by left|].
      exists fn. split; [done|]. by left.
    + destruct (Str.endswith (expand fn) ".py") eqn:Hpy; [|by left].
      rewrite get_set_eq in Hacc. injection Hacc as <-.
      right. split; [apply elem_of_cons; by left|].
      exists fn. split; [done|]. by right.
Qed.

(** X6. Every entry of the index comes from a name [iter_modules]
    yielded whose file name was resolved: the root is the directory of a
    file ending in [__init__.py] or is the file itself, ending in [.py].
    A unit that cannot be resolved, or that resolves to another kind of
    file, has no entry. *)
Theorem get_installed_sound (name root : string) :
  Dict.get get_installed name = Some root ->
  name ∈ iter_modules /\
  exists fn,
    get_filename name = Some fn /\
    ((Str.endswith (expand fn) "__init__.py" = true /\
      root = dirname (expand fn)) \/
     (Str.endswith (expand fn) "__init__.py" = false /\
      Str.endswith (expand fn) ".py" = true /\
      root = expand fn)).
Proof.
  intros Hget. unfold get_installed in Hget.
  by destruct (record_units_sound _ _ _ _ Hget) as [Hnil|Hok].
Qed.

Lemma keys_set_nodup {K V : Type} `{EqDecision K}
    (d : list (K * V)) (k : K) (v : V) :
  NoDup (Dict.keys d) -> NoDup (Dict.keys (Dict.set d k v)).
Proof.
  unfold Dict.keys. induction d as [|[k' v'] d IH]; simpl.
  - intros _. apply NoDup_singleton.
  - intros [Hk Hd]%NoDup_cons.
    destruct (decide (k = k')) as [->|Hne]; simpl.
    + by apply NoDup_cons.
    + apply NoDup_cons. split; [|by apply IH].
      intros Hin. apply (keys_set d k v k') in Hin as [->|Hin]; done.
Qed.

Lemma record_units_nodup (names : list string)
    (acc : list (string * string)) :
  NoDup (Dict.keys acc) ->
  NoDup (Dict.keys (fold_left record_unit names acc)).
Proof.
  revert acc. induction names as [|n names IH]; intros acc Hacc; simpl.
  - done.
  - apply IH. cbv beta zeta.
    destruct (get_filename n) as [fn|]; [|done].
    destruct (Str.endswith (expand fn) "__init__.py").
    + by apply keys_set_nodup.
    + destruct (Str.endswith (expand fn) ".py");
        [by apply keys_set_nodup | done].
Qed.

(** X7. The index holds each unit name once, however often
    [iter_modules] yields it. *)
Theorem get_installed_keys_unique : NoDup (Dict.keys get_installed).
Proof. unfold get_installed. apply record_units_nodup. apply NoDup_nil_2. Qed.

(** X8. [__init__] raises [KeyError] when no unit named [collections]
    was indexed; otherwise it returns a runner with the blacklists it was
    given, the index of [get_installed], a built-in set within the names
    of that index, and none of the attributes that [start], [stop] and
    [copy_list] assign. *)
Theorem init_outcome (mods files : option (list string)) :
  (Dict.get get_installed "collections" = None ->
   __init__ mods files = Raise KeyError) /\
  (forall runner,
     __init__ mods files = Ok runner ->
     mod_blacklist runner = mods /\
     file_blacklist runner = files /\
     installed runner = get_installed /\
     (forall m, m ∈ stdlib runner -> m ∈ Dict.keys (installed runner)) /\
     _lsof_start runner = None /\ _files runner = None /\
     _lsof_stop runner = None /\ _totals runner = None).
Proof.
  unfold __init__. split.
  - intros Hnone. unfold packz.stdlib. by rewrite Hnone.
  - intros runner.
    destruct (packz.stdlib get_installed) as [std|e] eqn:Hstd; [|done].
    intros [= <-]. simpl. repeat split.
    intros m Hm.
    unfold packz.stdlib in Hstd.
    destruct (Dict.get get_installed "collections") as [root|]; [|done].
    injection Hstd as <-.
    apply elem_of_list_to_set, list_elem_of_fmap in Hm as ([m' p] & -> & Hin).
    apply list_elem_of_In, filter_In in Hin as [Hin _].
    unfold Dict.keys. apply list_elem_of_fmap. exists (m', p).
    split; [done | by apply list_elem_of_In].
Qed.

End Index.

Lemma get_installed_package_witness :
  Dict.get (get_installed (H := Demo2.platform)) "numpy"
  = Some (dirname "/usr/lib/python3/site-packages/numpy/__init__.py").
Proof.
  apply (get_installed_package (H := Demo2.platform) "numpy"
           "/usr/lib/python3/site-packages/numpy/__init__.py").
  - apply elem_of_cons. right. apply elem_of_cons. right.
    apply elem_of_cons. by left.
  - reflexivity.
  - reflexivity.
Defined.

Lemma get_installed_sound_witness :
  "os" ∈ iter_modules (Platform := Demo2.platform) /\
  exists fn,
    get_filename (Platform := Demo2.platform) "os" = Some fn /\
    ((Str.endswith (expand (H := Demo2.platform) fn) "__init__.py" = true /\
      "/usr/lib/python3/os.py" = dirname (expand (H := Demo2.platform) fn)) \/
     (Str.endswith (expand (H := Demo2.platform) fn) "__init__.py" = false /\
      Str.endswith (expand (H := Demo2.platform) fn) ".py" = true /\
      "/usr/lib/python3/os.py" = expand (H := Demo2.platform) fn)).
Proof.
  apply (get_installed_sound (H := Demo2.platform) "os"
           "/usr/lib/python3/os.py").
  reflexivity.
Defined.

Lemma stdlib_key_error_witness :
  packz.stdlib [("os", "/usr/lib/python3/os.py")] = Raise KeyError.
Proof.
  apply (proj1 (stdlib_key_error [("os", "/usr/lib/python3/os.py")])).
  reflexivity.
Defined.

Lemma init_outcome_witness :
  __init__ (H := Demo.platform) None None = Raise KeyError /\
  exists runner,
    __init__ (H := Demo2.platform) (Some ["fcl"]) None = Ok runner /\
    installed runner = get_installed (H := Demo2.platform) /\
    _files runner = None.
Proof.
  split.
  - apply (proj1 (init_outcome (H := Demo.platform) None None)).
    reflexivity.
  - destruct (__init__ (H := Demo2.platform) (Some ["fcl"]) None)
      as [runner|e] eqn:Hin; [|vm_compute in Hin; discriminate Hin].
    exists runner. split; [done|].
    destruct (proj2 (init_outcome (H := Demo2.platform) (Some ["fcl"]) None)
                runner Hin) as (_ & _ & Hidx & _ & _ & Hf & _).
    by split.
Defined.

(** ** More on [which_module] *)

Section Ownership.

Local Abbreviation step f :=
  (fun acc '(m, p) =>
     if Str.startswith f p then Dict.set acc p m else acc).

Lemma which_module_ok (self : PackRunner) (file_name : string) :
  exists owner, which_module self file_name = Ok owner.
Proof.
  destruct (decide (Exists (fun mp => Str.startswith file_name (snd mp) = true)
                      (installed self))) as [Hex|Hno].
  - apply Exists_exists in Hex as ([m p] & Hin & Hp).
    destruct (which_module_some self file_name m p Hin Hp)
      as (mod_ & start & Hw & _).
    by eexists.
  - exists None. apply which_module_none. intros m p Hin.
    destruct (Str.startswith file_name p) eqn:Hp; [|done].
    exfalso. apply Hno, Exists_exists. by exists (m, p).
Qed.

(** X9. [which_module] never raises: the look-up of the greatest key
    always succeeds.  It returns [(None, None)] if and only if no root
    of the index is a prefix of the file name, and a unit otherwise. *)
Theorem which_module_never_raises (self : PackRunner) (file_name : string) :
  (exists owner, which_module self file_name = Ok owner) /\
  (which_module self file_name = Ok None <->
   forall m p, (m, p) ∈ installed self ->
     Str.startswith file_name p = false) /\
  ((exists mod_ start,
      which_module self file_name = Ok (Some (mod_, start))) <->
   exists m p, (m, p) ∈ installed self /\
     Str.startswith file_name p = true).
Proof.
  split; [apply which_module_ok|]. split; split.
  - intros Hnone m p Hin.
    destruct (Str.startswith file_name p) eqn:Hp; [|done].
    destruct (which_module_some self file_name m p Hin Hp)
      as (mod_ & start & Hw & _).
    rewrite Hw in Hnone. discriminate Hnone.
  - apply which_module_none.
  - intros (mod_ & start & Hw).
    destruct (which_module_inv _ _ _ _ Hw) as [Hin Hp].
    by exists mod_, start.
  - intros (m & p & Hin & Hp).
    destruct (which_module_some self file_name m p Hin Hp)
      as (mod_ & start & Hw & _).
    by exists mod_, start.
Qed.

Lemma starts_fold_last (f : string) (l : list (string * string))
    (k m : string) :
  Dict.get (fold_left (step f) l []) k = Some m ->
  Str.startswith f k = true /\
  exists l1 l2,
    l = l1 ++ (m, k) :: l2 /\ forall m', (m', k) ∉ l2.
Proof.
  revert k m. induction l as [|[m0 p0] l IH] using rev_ind; intros k m.
  - done.
  - rewrite fold_left_app. simpl.
    destruct (Str.startswith f p0) eqn:Hp0.
    + destruct (decide (p0 = k)) as [->|Hne].
      * rewrite get_set_eq. intros [= ->]. split; [done|].
        exists l, []. split; [done|]. intros m'. apply not_elem_of_nil.
      * rewrite get_set_ne by done. intros Hget.
        destruct (IH _ _ Hget) as (Hk & l1 & l2 & -> & Hl2).
        split; [done|]. exists l1, (l2 ++ [(m0, p0)]).
        split; [by rewrite <- app_assoc|].
        intros m' [Hin|Hin]%elem_of_app; [by apply (Hl2 m')|].
        apply list_elem_of_singleton in Hin. congruence.
    + intros Hget.
      destruct (IH _ _ Hget) as (Hk & l1 & l2 & -> & Hl2).
      split; [done|]. exists l1, (l2 ++ [(m0, p0)]).
      split; [by rewrite <- app_assoc|].
      intros m' [Hin|Hin]%elem_of_app; [by apply (Hl2 m')|].
      apply list_elem_of_singleton in Hin. congruence.
Qed.

(** X10. When several units of the index have the root that wins, the
    unit returned is the last of them in the order of the index: the
    dict comprehension keeps the last name it sees for a path. *)
Theorem which_module_last_wins
    (self : PackRunner) (file_name mod_ start : string) :
  which_module self file_name = Ok (Some (mod_, start)) ->
  exists before after,
    installed self = before ++ (mod_, start) :: after /\
    forall m, (m, start) ∉ after.
Proof.
  unfold which_module.
  destruct (0 <? length _)%nat; [|done].
  destruct (Dict.keys _) as [|k ks]; [done|].
  destruct (Dict.get _ _) as [v|] eqn:Hv; [|done].
  intros [= <- <-].
  by destruct (starts_fold_last _ _ _ _ Hv) as [_ Hlast].
Qed.

End Ownership.

Lemma which_module_last_wins_witness :
  exists before after,
    installed Demo2.tied = before ++ ("second", "/a/pkg") :: after /\
    forall m, (m, "/a/pkg") ∉ after.
Proof.
  apply (which_module_last_wins Demo2.tied "/a/pkg/x.py" "second" "/a/pkg").
  reflexivity.
Defined.

Lemma which_module_never_raises_witness :
  which_module (Demo.runner None None [("pkg", "/a/pkg")]) "/x/a.txt"
  = Ok None.
Proof.
  apply (proj2 (proj1 (proj2 (which_module_never_raises
                 (Demo.runner None None [("pkg", "/a/pkg")]) "/x/a.txt")))).
  intros m p Hin. apply list_elem_of_singleton in Hin.
  by injection Hin as -> ->.
Defined.

(** ** More on [path_map] *)

Lemma split_root_level (name : string) :
  Str.contains "/" name = false ->
  posixpath.split ("/" +:+ name) = ("/", name).
Proof.
  intros Hname. unfold posixpath.split, posixpath.sep.
  change ("/" +:+ name) with ("" +:+ String "/" name).
  rewrite (rfind_app_sep "/" "" name Hname). reflexivity.
Qed.

Section PathMapMore.
Context `{Platform}.

(** X11. A file that no unit owns and no pattern excludes is mapped to
    [lib/] followed by its base name, which holds no separator: unowned
    files land directly in [lib], whatever directory they come from; in
    a call made with the hook off the state is unchanged. *)
Theorem path_map_unowned (w : World) (file_name : string) :
  settrace w = false ->
  file_blacklisted (self w) file_name = false ->
  which_module (self w) file_name = Ok None ->
  path_map file_name w = (Ok (Some ("lib/" +:+ basename file_name)), w) /\
  first_segment ("lib/" +:+ basename file_name) = "lib" /\
  Str.contains "/" (basename file_name) = false.
Proof.
  intros _ Hfb Hw. rewrite path_map_unfold, Hfb, Hw.
  rewrite join_lib by apply tail_no_sep.
  repeat split. apply tail_no_sep.
Qed.

(** X12. For a unit installed directly below the root directory, as
    [/name], the head of the root is [/] itself and the code skips one
    character more: the destination has lost the first character of the
    name of the unit. *)
Theorem path_map_root_level_unit
    (w : World) (file_name mod_ : string) (c : ascii) (name dst : string) :
  which_module (self w) file_name
    = Ok (Some (mod_, "/" +:+ String c name)) ->
  Str.contains "/" (String c name) = false ->
  fst (path_map file_name w) = Ok (Some dst) ->
  exists rest,
    file_name = "/" +:+ String c name +:+ rest /\
    dst = name +:+ rest.
Proof.
  intros Hw Hname Hdst.
  destruct (which_module_inv _ _ _ _ Hw) as [_ Hpre].
  apply startswith_app in Hpre as [rest Hrest].
  rewrite string_app_assoc in Hrest.
  exists rest. split; [done|].
  rewrite path_map_unfold, Hw in Hdst.
  destruct (file_blacklisted _ _); [done|].
  destruct (bool_decide _); [done|].
  destruct (mod_blacklisted _ _); [done|].
  destruct (_totals _); [|done].
  destruct (os.getsize _ _); [|done].
  simpl in Hdst. injection Hdst as <-.
  unfold dirname. rewrite (split_root_level _ Hname).
  by rewrite Hrest.
Qed.

(** X13. Without a ledger, that is before the first [copy_list],
    [path_map] raises [AttributeError] for a file it would charge to a
    unit and answers as usual for every other file; in a call made with
    the hook off the state is unchanged in both cases. *)
Theorem path_map_without_ledger (w : World) (file_name : string) :
  settrace w = false ->
  _totals (self w) = None ->
  path_map file_name w =
  (match charged (self w) file_name with
   | Some _ => Raise AttributeError
   | None => Ok (destination (self w) file_name)
   end, w).
Proof.
  intros _ Hnone. rewrite path_map_unfold. unfold charged, destination.
  destruct (file_blacklisted (self w) file_name); [done|].
  destruct (which_module_ok (self w) file_name) as [[[m start]|] ->];
    [|done].
  destruct (bool_decide (m ∈ stdlib (self w))); [done|].
  destruct (mod_blacklisted (self w) m); [done|].
  by rewrite Hnone.
Qed.

End PathMapMore.

Lemma path_map_unowned_witness :
  path_map (H := Demo.platform) "/x/a.txt" Demo.same_name
    = (Ok (Some ("lib/" +:+ basename "/x/a.txt")), Demo.same_name) /\
  first_segment ("lib/" +:+ basename "/x/a.txt") = "lib" /\
  Str.contains "/" (basename "/x/a.txt") = false.
Proof.
  apply (path_map_unowned (H := Demo.platform) Demo.same_name "/x/a.txt");
    reflexivity.
Defined.

Lemma path_map_root_level_unit_witness :
  exists rest,
    "/pkg/mod.py" = "/" +:+ String "p" "kg" +:+ rest /\
    "kg/mod.py" = "kg" +:+ rest.
Proof.
  apply (path_map_root_level_unit (H := Demo.platform) Demo2.top_level
           "/pkg/mod.py" "pkg" "p" "kg" "kg/mod.py").
  - reflexivity.
  - reflexivity.
  - vm_compute. reflexivity.
Defined.

Lemma path_map_without_ledger_witness :
  path_map (H := Demo.platform) "/a/pkg/mod.py" Demo2.fresh
  = (Raise AttributeError, Demo2.fresh).
Proof.
  exact (path_map_without_ledger (H := Demo.platform) Demo2.fresh
           "/a/pkg/mod.py" eq_refl eq_refl).
Defined.

(** ** More on [copy_list] *)

Section CopyListMore.
Context `{Platform}.

Lemma path_map_frame (w : World) (f : string) :
  forget_totals (snd (path_map f w)) = forget_totals w.
Proof.
  rewrite path_map_unfold.
  destruct (file_blacklisted (self w) f); [done|].
  destruct (which_module (self w) f) as [[[m start]|]|e]; [|done|done].
  destruct (bool_decide (m ∈ stdlib (self w))); [done|].
  destruct (mod_blacklisted (self w) m); [done|].
  destruct (_totals (self w)); [|done].
  by destruct (os.getsize (disk w) f).
Qed.

Lemma classify_pass_frame (xs : list string) (w : World) :
  forget_totals
    (snd (for_each (fun f => let* dst := path_map f in ret (f, dst)) xs w))
  = forget_totals w.
Proof.
  revert w. induction xs as [|x xs IH]; intros w; [done|].
  simpl. unfold bind at 1. unfold bind at 1.
  pose proof (path_map_frame w x) as Hx.
  destruct (path_map x w) as [[r|e] w1]; simpl in Hx; [|done].
  unfold ret at 1. unfold bind at 1.
  pose proof (IH w1) as Hxs.
  destruct (for_each _ xs w1) as [[ys|e] w2]; unfold ret;
    cbn [snd] in Hxs |- *; by rewrite Hxs.
Qed.

Lemma copy_list_keeps (w : World) :
  forget_totals (snd (copy_list w)) = forget_totals w.
Proof.
  unfold copy_list, bind, modify, getattr, gets.
  cbn [self with_self set__totals _files].
  destruct (_files (self w)) as [files|]; [|done].
  cbn [self with_self set__totals _lsof_stop].
  destruct (_lsof_stop (self w)) as [after|]; [|done].
  cbn [self with_self set__totals _lsof_start disk].
  destruct (_lsof_start (self w)) as [before|]; [|done].
  set (w0 := with_self (set__totals ∅) w).
  pose proof (classify_pass_frame
                (map expand (filter (fun f => os.isfile (disk w) f = true)
                               (elements (after ∖ before)))) w0) as H1.
  assert (H0 : forget_totals w0 = forget_totals w) by reflexivity.
  destruct (for_each _ _ w0) as [[ys1|e] w1]; cbn [snd] in H1;
    [|cbn [snd]; by rewrite H1].
  pose proof (classify_pass_frame
                (map expand (filter (fun f => os.isfile (disk w) f = true)
                   (elements (list_to_set files : gset string)))) w1) as H2.
  destruct (for_each _ _ w1) as [[ys2|e] w2]; unfold ret;
    cbn [snd] in H2 |- *; by rewrite H2, H1.
Qed.

(** X14. Called with the hook off, as after [stop], [copy_list] changes
    nothing but the ledger, whether it returns or raises: the disk, the
    printed lines, the hook, the index, the blacklists and the recorded
    files and snapshots are as before. *)
Theorem copy_list_frame (w : World) :
  settrace w = false ->
  forget_totals (snd (copy_list w)) = forget_totals w /\
  disk (snd (copy_list w)) = disk w /\
  stdout (snd (copy_list w)) = stdout w /\
  settrace (snd (copy_list w)) = settrace w /\
  installed (self (snd (copy_list w))) = installed (self w) /\
  _files (self (snd (copy_list w))) = _files (self w).
Proof.
  intros _. pose proof (copy_list_keeps w) as Hfr.
  split; [done|].
  repeat split.
  - change (disk (forget_totals (snd (copy_list w)))
            = disk (forget_totals w)). by rewrite Hfr.
  - change (stdout (forget_totals (snd (copy_list w)))
            = stdout (forget_totals w)). by rewrite Hfr.
  - change (settrace (forget_totals (snd (copy_list w)))
            = settrace (forget_totals w)). by rewrite Hfr.
  - change (installed (self (forget_totals (snd (copy_list w))))
            = installed (self (forget_totals w))). by rewrite Hfr.
  - change (_files (self (forget_totals (snd (copy_list w))))
            = _files (self (forget_totals w))). by rewrite Hfr.
Qed.

Lemma elem_of_not_none (src dst : string)
    (l : list (string * option string)) :
  (src, dst) ∈ not_none l <-> (src, Some dst) ∈ l.
Proof.
  unfold not_none. rewrite list_elem_of_omap. split.
  - intros ([s [d|]] & Hin & Heq); simpl in Heq; [|done].
    by injection Heq as -> ->.
  - intros Hin. by exists (src, Some dst).
Qed.

Lemma elem_of_classified (self : PackRunner) (src dst : string)
    (xs : list string) :
  (src, dst) ∈ not_none (map (fun f => (f, destination self f)) xs) <->
  src ∈ xs /\ destination self src = Some dst.
Proof.
  rewrite elem_of_not_none, list_elem_of_fmap. split.
  - intros (f & [= -> Hd] & Hin). by split.
  - intros [Hin Hd]. exists src. by rewrite Hd.
Qed.

Lemma elem_of_touched (d : gmap string node) (src : string)
    (names : gset string) :
  src ∈ map expand (filter (fun f => os.isfile d f = true) (elements names))
  <-> exists g, expand g = src /\ os.isfile d g = true /\ g ∈ names.
Proof.
  rewrite list_elem_of_fmap. split.
  - intros (g & -> & [Hf Hin]%list_elem_of_filter).
    exists g. by rewrite <- elem_of_elements.
  - intros (g & <- & Hf & Hin). exists g. split; [done|].
    apply list_elem_of_filter. by rewrite elem_of_elements.
Qed.

(** X15. Every entry of the copy list is the expansion of a regular file
    that was newly opened or executed during the run, paired with the
    destination [path_map] gives it. *)
Theorem copy_list_sound
    (w w' : World) (copies : list (string * string))
    (files : list string) (before after : gset string) (src dst : string) :
  copy_list w = (Ok copies, w') ->
  _files (self w) = Some files ->
  _lsof_start (self w) = Some before ->
  _lsof_stop (self w) = Some after ->
  (src, dst) ∈ copies ->
  destination (self w) src = Some dst /\
  exists g,
    expand g = src /\ os.isfile (disk w) g = true /\
    (g ∈ after ∖ before \/ g ∈ files).
Proof.
  intros Hcl Hf Hb Ha Hin.
  destruct (copy_list_ok _ _ _ _ _ _ Hcl Hf Hb Ha) as [-> _].
  apply elem_of_classified in Hin as [Hsrc Hdst]. split; [done|].
  unfold opened_files, used_files in Hsrc.
  apply elem_of_app in Hsrc as [Hsrc|Hsrc];
    apply elem_of_touched in Hsrc as (g & Hg & Hfile & Hmem);
    exists g; repeat split; try done.
  - by left.
  - right. by apply elem_of_list_to_set in Hmem.
Qed.

(** X16. Conversely no touched file is lost: the expansion of every
    regular file that was newly opened or executed, when [path_map] gives
    it a destination, is in the copy list with that destination. *)
Theorem copy_list_complete
    (w w' : World) (copies : list (string * string))
    (files : list string) (before after : gset string) (g dst : string) :
  copy_list w = (Ok copies, w') ->
  _files (self w) = Some files ->
  _lsof_start (self w) = Some before ->
  _lsof_stop (self w) = Some after ->
  g ∈ after ∖ before \/ g ∈ files ->
  os.isfile (disk w) g = true ->
  destination (self w) (expand g) = Some dst ->
  (expand g, dst) ∈ copies.
Proof.
  intros Hcl Hf Hb Ha Hmem Hfile Hdst.
  destruct (copy_list_ok _ _ _ _ _ _ Hcl Hf Hb Ha) as [-> _].
  apply elem_of_classified. split; [|done].
  unfold opened_files, used_files. apply elem_of_app.
  destruct Hmem as [Hmem|Hmem]; [left | right];
    apply elem_of_touched; exists g; repeat split; try done.
  by apply elem_of_list_to_set.
Qed.

(** X17. The copy list holds no file whose base name matches a pattern
    of the file blacklist and no file owned by a built-in unit or by a
    unit of the unit blacklist. *)
Theorem copy_list_excludes
    (w w' : World) (copies : list (string * string)) (src dst : string) :
  copy_list w = (Ok copies, w') ->
  (src, dst) ∈ copies ->
  file_blacklisted (self w) src = false /\
  forall m start,
    which_module (self w) src = Ok (Some (m, start)) ->
    (m ∉ stdlib (self w)) /\ mod_blacklisted (self w) m = false.
Proof.
  intros Hcl Hin.
  destruct (copy_list_attrs _ _ _ Hcl)
    as (files & before & after & Hf & Hb & Ha).
  destruct (copy_list_ok _ _ _ _ _ _ Hcl Hf Hb Ha) as [-> _].
  apply elem_of_classified in Hin as [_ Hdst].
  unfold destination in Hdst.
  destruct (file_blacklisted (self w) src); [done|].
  split; [done|]. intros m start Hw. rewrite Hw in Hdst.
  destruct (bool_decide (m ∈ stdlib (self w))) eqn:Hstd; [done|].
  apply bool_decide_eq_false in Hstd.
  by destruct (mod_blacklisted (self w) m).
Qed.

Lemma copy_list_forget (w : World) :
  copy_list (forget_totals w) = copy_list w.
Proof. reflexivity. Qed.

(** X18. [copy_list] starts from an empty ledger each time: with the
    hook off, called again right after it has returned, it returns the
    same list and leaves the same state, so sizes are not added up
    across calls. *)
Theorem copy_list_again
    (w w' : World) (copies : list (string * string)) :
  settrace w = false ->
  copy_list w = (Ok copies, w') ->
  copy_list w' = (Ok copies, w').
Proof.
  intros _ Hcl.
  pose proof (copy_list_keeps w) as Hfr. rewrite Hcl in Hfr. simpl in Hfr.
  by rewrite <- (copy_list_forget w'), Hfr, copy_list_forget.
Qed.

End CopyListMore.

Section Ledger.
Context `{Platform}.

Lemma charged_frame (w w' : World) (f : string) :
  forget_totals w' = forget_totals w ->
  charged (self w') f = charged (self w) f.
Proof.
  intros Heq.
  change (charged (self (forget_totals w')) f
          = charged (self (forget_totals w)) f).
  by rewrite Heq.
Qed.

Lemma charged_size_frame (w w' : World) (name : string) (xs : list string) :
  forget_totals w' = forget_totals w ->
  charged_size (self w') (disk w') name xs
  = charged_size (self w) (disk w) name xs.
Proof.
  intros Heq.
  assert (Hd : disk w' = disk w).
  { change (disk (forget_totals w') = disk (forget_totals w)).
    by rewrite Heq. }
  induction xs as [|x xs IH]; [done|].
  simpl. by rewrite IH, (charged_frame w w' x Heq), Hd.
Qed.

(** What one pass of [copy_list] adds to the ledger. *)
Lemma classify_pass_ledger (xs : list string) (w w' : World)
    (ys : list (string * option string)) (totals : gmap string Z) :
  for_each (fun f => let* dst := path_map f in ret (f, dst)) xs w
    = (Ok ys, w') ->
  _totals (self w) = Some totals ->
  exists totals',
    _totals (self w') = Some totals' /\
    forall name,
      default 0 (totals' !! name)
      = default 0 (totals !! name)
        + charged_size (self w) (disk w) name xs.
Proof.
  revert w ys totals. induction xs as [|x xs IH]; intros w ys totals; simpl.
  - intros [= _ <-] Ht. exists totals. split; [done|]. intros name. lia.
  - unfold bind at 1. unfold bind at 1.
    destruct (path_map x w) as [[r|e] w1] eqn:Hx; [|done].
    unfold ret at 1. unfold bind at 1.
    destruct (for_each _ xs w1) as [[ys'|e] w2] eqn:Hxs; [|done].
    intros [= _ <-] Ht.
    destruct (path_map_ok _ _ _ _ Hx) as [_ Hfr].
    rewrite path_map_unfold in Hx. unfold charged.
    destruct (file_blacklisted (self w) x).
    { injection Hx as _ <-.
      destruct (IH _ _ _ Hxs Ht) as (t' & Ht' & Hsum).
      exists t'. split; [done|]. intros name. rewrite Hsum.
      rewrite bool_decide_eq_false_2 by done. lia. }
    destruct (which_module (self w) x) as [[[m start]|]|e]; [| |done].
    2:{ injection Hx as _ <-.
        destruct (IH _ _ _ Hxs Ht) as (t' & Ht' & Hsum).
        exists t'. split; [done|]. intros name. rewrite Hsum.
        rewrite bool_decide_eq_false_2 by done. lia. }
    destruct (bool_decide (m ∈ stdlib (self w))).
    { injection Hx as _ <-.
      destruct (IH _ _ _ Hxs Ht) as (t' & Ht' & Hsum).
      exists t'. split; [done|]. intros name. rewrite Hsum.
      rewrite bool_decide_eq_false_2 by done. lia. }
    destruct (mod_blacklisted (self w) m).
    { injection Hx as _ <-.
      destruct (IH _ _ _ Hxs Ht) as (t' & Ht' & Hsum).
      exists t'. split; [done|]. intros name. rewrite Hsum.
      rewrite bool_decide_eq_false_2 by done. lia. }
    rewrite Ht in Hx.
    destruct (os.getsize (disk w) x) as [size|e]; [|done].
    simpl in Hx. injection Hx as _ <-.
    destruct (IH _ _ (<[m := default 0 (totals !! m) + size]> totals) Hxs)
      as (t' & Ht' & Hsum); [done|].
    exists t'. split; [done|]. intros name. rewrite Hsum.
    rewrite (charged_size_frame w _ name xs) by done.
    destruct (decide (m = name)) as [->|Hne].
    + rewrite lookup_insert_eq, bool_decide_eq_true_2 by done. simpl. lia.
    + rewrite lookup_insert_ne, bool_decide_eq_false_2 by congruence. lia.
Qed.

(** X19. When [copy_list] returns, the ledger entry of every unit is the
    sum of the sizes of the classified files charged to it, the opened
    ones and then the executed ones; a file that is in both is counted
    twice, and a unit that owns none of them counts for 0. *)
Theorem copy_list_ledger
    (w w' : World) (copies : list (string * string))
    (files : list string) (before after : gset string) (name : string) :
  copy_list w = (Ok copies, w') ->
  _files (self w) = Some files ->
  _lsof_start (self w) = Some before ->
  _lsof_stop (self w) = Some after ->
  default 0 (ledger w' name)
  = charged_size (self w) (disk w) name
      (opened_files w before after ++ used_files w files).
Proof.
  intros Hcl Hf Hb Ha. revert Hcl.
  unfold copy_list, bind, modify, getattr, gets.
  cbn [self with_self set__totals _files].
  rewrite Hf.
  cbn [self with_self set__totals _lsof_stop].
  rewrite Ha.
  cbn [self with_self set__totals _lsof_start disk].
  rewrite Hb.
  set (w0 := with_self (set__totals ∅) w).
  fold (opened_files w before after). fold (used_files w files).
  destruct (for_each _ (opened_files w before after) w0)
    as [[ys1|e] w1] eqn:H1; [|done].
  destruct (for_each _ (used_files w files) w1)
    as [[ys2|e] w2] eqn:H2; [|done].
  unfold ret. intros [= _ <-].
  assert (H0 : forget_totals w0 = forget_totals w) by reflexivity.
  destruct (classify_pass _ _ _ _ H1) as [_ Hw1].
  destruct (classify_pass_ledger _ _ _ _ ∅ H1 eq_refl) as (t1 & Ht1 & Hs1).
  destruct (classify_pass_ledger _ _ _ _ t1 H2 Ht1) as (t2 & Ht2 & Hs2).
  unfold ledger. rewrite Ht2, Hs2, Hs1, lookup_empty. simpl.
  rewrite (charged_size_frame w0 w1) by done.
  rewrite !(charged_size_frame w w0) by done.
  clear. induction (opened_files w before after) as [|x xs IH]; simpl; lia.
Qed.

End Ledger.

Lemma copy_list_sound_witness :
  destination (H := Demo.platform) (self Demo.both) "/a/pkg/mod.py"
    = Some "pkg/mod.py" /\
  exists g,
    expand (H := Demo.platform) g = "/a/pkg/mod.py" /\
    os.isfile (disk Demo.both) g = true /\
    (g ∈ ({["/a/pkg/mod.py"]} : gset string) ∖ ∅ \/ g ∈ ["/a/pkg/mod.py"]).
Proof.
  assert (Hrun : copy_list (H := Demo.platform) Demo.both
                 = (Ok [("/a/pkg/mod.py", "pkg/mod.py");
                        ("/a/pkg/mod.py", "pkg/mod.py")],
                    snd (copy_list (H := Demo.platform) Demo.both)))
    by (vm_compute; reflexivity).
  apply (copy_list_sound (H := Demo.platform) Demo.both _ _
           ["/a/pkg/mod.py"] ∅ {["/a/pkg/mod.py"]}
           "/a/pkg/mod.py" "pkg/mod.py" Hrun eq_refl eq_refl eq_refl).
  apply elem_of_cons. by left.
Defined.

Lemma copy_list_complete_witness :
  (expand (H := Demo.platform) "/x/a.txt", "lib/a.txt")
  ∈ [("/y/a.txt", "lib/a.txt"); ("/x/a.txt", "lib/a.txt")].
Proof.
  assert (Hrun : copy_list (H := Demo.platform) Demo.same_name
                 = (Ok [("/y/a.txt", "lib/a.txt"); ("/x/a.txt", "lib/a.txt")],
                    snd (copy_list (H := Demo.platform) Demo.same_name)))
    by (vm_compute; reflexivity).
  apply (copy_list_complete (H := Demo.platform) Demo.same_name _ _
           [] ∅ {["/x/a.txt"; "/y/a.txt"]} "/x/a.txt" "lib/a.txt"
           Hrun eq_refl eq_refl eq_refl).
  - left. set_solver.
  - reflexivity.
  - reflexivity.
Defined.

Lemma copy_list_excludes_witness :
  file_blacklisted (H := Demo.platform) (self Demo.both) "/a/pkg/mod.py"
    = false /\
  forall m start,
    which_module (self Demo.both) "/a/pkg/mod.py" = Ok (Some (m, start)) ->
    (m ∉ stdlib (self Demo.both)) /\
    mod_blacklisted (self Demo.both) m = false.
Proof.
  assert (Hrun : copy_list (H := Demo.platform) Demo.both
                 = (Ok [("/a/pkg/mod.py", "pkg/mod.py");
                        ("/a/pkg/mod.py", "pkg/mod.py")],
                    snd (copy_list (H := Demo.platform) Demo.both)))
    by (vm_compute; reflexivity).
  apply (copy_list_excludes (H := Demo.platform) Demo.both _ _
           "/a/pkg/mod.py" "pkg/mod.py" Hrun).
  apply elem_of_cons. by left.
Defined.

Lemma copy_list_frame_witness :
  forget_totals (snd (copy_list (H := Demo.platform) Demo.both))
    = forget_totals Demo.both /\
  disk (snd (copy_list (H := Demo.platform) Demo.both)) = disk Demo.both /\
  stdout (snd (copy_list (H := Demo.platform) Demo.both))
    = stdout Demo.both /\
  settrace (snd (copy_list (H := Demo.platform) Demo.both))
    = settrace Demo.both /\
  installed (self (snd (copy_list (H := Demo.platform) Demo.both)))
    = installed (self Demo.both) /\
  _files (self (snd (copy_list (H := Demo.platform) Demo.both)))
    = _files (self Demo.both).
Proof.
  exact (copy_list_frame (H := Demo.platform) Demo.both eq_refl).
Defined.

Lemma copy_list_again_witness :
  copy_list (H := Demo.platform)
    (snd (copy_list (H := Demo.platform) Demo.both))
  = (Ok [("/a/pkg/mod.py", "pkg/mod.py"); ("/a/pkg/mod.py", "pkg/mod.py")],
     snd (copy_list (H := Demo.platform) Demo.both)).
Proof.
  apply (copy_list_again (H := Demo.platform) Demo.both).
  - reflexivity.
  - vm_compute. reflexivity.
Defined.

Lemma copy_list_ledger_witness :
  default 0 (ledger (snd (copy_list (H := Demo.platform) Demo.both)) "pkg")
  = 18.
Proof.
  assert (Hrun : copy_list (H := Demo.platform) Demo.both
                 = (Ok [("/a/pkg/mod.py", "pkg/mod.py");
                        ("/a/pkg/mod.py", "pkg/mod.py")],
                    snd (copy_list (H := Demo.platform) Demo.both)))
    by (vm_compute; reflexivity).
  rewrite (copy_list_ledger (H := Demo.platform) Demo.both _ _
             ["/a/pkg/mod.py"] ∅ {["/a/pkg/mod.py"]} "pkg"
             Hrun eq_refl eq_refl eq_refl).
  vm_compute. reflexivity.
Defined.

(** ** The tracer: [start], [_trace] and [stop] *)

Section Tracer.
Context `{Platform}.

Lemma traced_off (fs : list string) (w : World) :
  settrace w = false -> traced fs w = (Ok tt, w).
Proof.
  intros Hoff. unfold traced, bind.
  assert (Hfe : for_each _trace fs w = (Ok (map (fun _ => tt) fs), w)).
  { induction fs as [|f fs IH]; [done|].
    simpl. unfold bind at 1. unfold _trace at 1, bind, gets.
    rewrite Hoff. unfold ret at 1. by rewrite IH. }
  by rewrite Hfe.
Qed.

Lemma traced_on (fs l : list string) (w : World) :
  settrace w = true ->
  _files (self w) = Some l ->
  traced fs w = (Ok tt, with_self (set__files (l ++ fs)) w).
Proof.
  intros Hon Hl. unfold traced, bind.
  assert (Hfe : for_each _trace fs w
                = (Ok (map (fun _ => tt) fs),
                   with_self (set__files (l ++ fs)) w)).
  { revert l w Hon Hl. induction fs as [|f fs IH]; intros l w Hon Hl.
    - simpl. unfold ret. f_equal. rewrite app_nil_r.
      destruct w as [[] ? ? ? ?]. simpl in *. by subst.
    - simpl. unfold bind at 1. unfold _trace at 1, bind, gets, getattr.
      rewrite Hon, Hl. unfold modify.
      rewrite (IH (l ++ [f])) by done.
      unfold bind, ret. by rewrite <- app_assoc. }
  by rewrite Hfe.
Qed.

Lemma start_ok (w w1 : World) :
  start w = (Ok tt, w1) ->
  exists opened,
    lsof w = (Ok opened, w) /\
    w1 = with_settrace true
           (with_self (set__files [])
              (with_self (set__lsof_start opened) w)).
Proof.
  unfold start, bind, modify. rewrite lsof_unfold.
  destruct (match shell w lsof_cmd with
            | Exited rc out => _
            | NotStarted => _
            end) as [opened|e]; [|done].
  intros [= <-]. by exists opened.
Qed.

(** X20. When [start] returns, the first snapshot is stored, an earlier
    final snapshot is still there, and from then on the hook records the
    file name of every frame it is called for, in order and with
    repetitions, starting from an empty list. *)
Theorem start_then_traced (w w1 : World) (fs : list string) :
  start w = (Ok tt, w1) ->
  exists opened,
    lsof w = (Ok opened, w) /\
    _lsof_start (self w1) = Some opened /\
    _lsof_stop (self w1) = _lsof_stop (self w) /\
    traced fs w1 = (Ok tt, with_self (set__files fs) w1).
Proof.
  intros Hs. destruct (start_ok _ _ Hs) as (opened & Hl & ->).
  exists opened. repeat split; try done.
  by apply (traced_on fs []).
Qed.

(** X21. [stop] removes the hook before it takes the snapshot: whether
    it returns or raises, the hook is off afterwards and calls of the
    hook record nothing. *)
Theorem stop_removes_hook (w : World) (fs : list string) :
  settrace (snd (stop w)) = false /\
  traced fs (snd (stop w)) = (Ok tt, snd (stop w)).
Proof.
  assert (Hoff : settrace (snd (stop w)) = false).
  { unfold stop, bind at 1, enter_frame, _trace, bind, gets, getattr, modify.
    destruct (settrace w) eqn:Hon.
    - destruct (_files (self w)) as [files|]; [|done].
      rewrite lsof_unfold.
      by destruct (match shell _ lsof_cmd with
                   | Exited rc out => _
                   | NotStarted => _
                   end).
    - unfold ret. rewrite lsof_unfold.
      by destruct (match shell _ lsof_cmd with
                   | Exited rc out => _
                   | NotStarted => _
                   end). }
  split; [done | by apply traced_off].
Qed.

(** X22. In a session in progress, with the hook installed, when the
    final snapshot fails [stop] raises after it has recorded its own
    frame as the last file and removed the hook, and leaves [_lsof_stop]
    as it was; if that was unassigned, a later [copy_list] raises
    [AttributeError]. *)
Theorem stop_failure_then_copy_list
    (w : World) (e : exn) (files : list string) :
  settrace w = true ->
  _files (self w) = Some files ->
  _lsof_stop (self w) = None ->
  fst (lsof w) = Raise e ->
  stop w
  = (Raise e,
     with_settrace false
       (with_self (set__files (files ++ [module_file])) w)) /\
  fst (copy_list
         (with_settrace false
            (with_self (set__files (files ++ [module_file])) w)))
  = Raise AttributeError.
Proof.
  intros Hon Hf Hnone Hl. rewrite lsof_unfold in Hl. cbn [fst] in Hl.
  split.
  - unfold stop, bind at 1, enter_frame, _trace, bind, gets, getattr, modify.
    rewrite Hon, Hf. rewrite lsof_unfold.
    cbn [shell with_settrace with_self]. by rewrite Hl.
  - unfold copy_list, bind, modify, getattr, gets.
    cbn [self with_self with_settrace set__totals set__files
         _files _lsof_stop].
    by rewrite Hnone.
Qed.

(** X23. [main] raises [KeyError] in the state it was started in when
    [collections] is not in the index: no hook is installed, nothing is
    run and nothing is copied. *)
Theorem main_without_collections (app : M unit) (w : World) :
  Dict.get get_installed "collections" = None ->
  main app w = (Raise KeyError, w).
Proof.
  intros Hnone. unfold main, __init__, packz.stdlib. by rewrite Hnone.
Qed.

(** X24. When the monitored program raises, [main] raises the same
    exception in the state the program left: [stop] is not called, so
    the hook [start] installed is not removed, and nothing is copied. *)
Theorem main_app_raises
    (app : M unit) (w w1 w2 : World) (runner : PackRunner) (e : exn) :
  __init__ (Some ["fcl"]) (Some ["*assimp*"]) = Ok runner ->
  start (with_self (fun _ => runner) w) = (Ok tt, w1) ->
  app w1 = (Raise e, w2) ->
  settrace w1 = true /\ main app w = (Raise e, w2).
Proof.
  intros Hinit Hstart Happ. split.
  - by destruct (start_ok _ _ Hstart) as (opened & _ & ->).
  - unfold main. rewrite Hinit. unfold bind at 1. rewrite Hstart.
    unfold bind at 1. by rewrite Happ.
Qed.

End Tracer.

Lemma start_then_traced_witness :
  traced ["/a/pkg/mod.py"; "/x/a.txt"; "/a/pkg/mod.py"]
    (snd (start (H := Demo.platform) Demo2.fresh))
  = (Ok tt,
     with_self (set__files ["/a/pkg/mod.py"; "/x/a.txt"; "/a/pkg/mod.py"])
       (snd (start (H := Demo.platform) Demo2.fresh))).
Proof.
  assert (Hs : start (H := Demo.platform) Demo2.fresh
               = (Ok tt, snd (start (H := Demo.platform) Demo2.fresh)))
    by (vm_compute; reflexivity).
  destruct (start_then_traced (H := Demo.platform) Demo2.fresh _
              ["/a/pkg/mod.py"; "/x/a.txt"; "/a/pkg/mod.py"] Hs)
    as (opened & _ & _ & _ & Ht).
  exact Ht.
Defined.

Lemma stop_failure_then_copy_list_witness :
  stop (H := Demo.platform) Demo2.recording
  = (Raise UnicodeDecodeError,
     with_settrace false
       (with_self (set__files (["/a/pkg/mod.py"] ++ ["/opt/packz/packz.py"]))
          Demo2.recording)) /\
  fst (copy_list (H := Demo.platform)
         (with_settrace false
            (with_self
               (set__files (["/a/pkg/mod.py"] ++ ["/opt/packz/packz.py"]))
               Demo2.recording)))
  = Raise AttributeError.
Proof.
  apply (stop_failure_then_copy_list (H := Demo.platform) Demo2.recording
           UnicodeDecodeError ["/a/pkg/mod.py"]); reflexivity.
Defined.

Lemma main_without_collections_witness :
  main (H := Demo.platform) (ret tt) Demo2.fresh
  = (Raise KeyError, Demo2.fresh).
Proof.
  apply (main_without_collections (H := Demo.platform)). reflexivity.
Defined.

Lemma main_app_raises_witness :
  exists w1 w2,
    settrace w1 = true /\
    main (H := Demo2.platform) (raise OSError) Demo2.fresh
      = (Raise OSError, w2).
Proof.
  destruct (__init__ (H := Demo2.platform) (Some ["fcl"]) (Some ["*assimp*"]))
    as [runner|e] eqn:Hinit; [|vm_compute in Hinit; discriminate Hinit].
  destruct (start (H := Demo2.platform)
              (with_self (fun _ => runner) Demo2.fresh))
    as [[[]|e] w1] eqn:Hstart.
  2:{ exfalso. unfold start, bind in Hstart.
      rewrite lsof_unfold in Hstart. vm_compute in Hstart.
      discriminate Hstart. }
  exists w1, w1.
  apply (main_app_raises (H := Demo2.platform) (raise OSError)
           Demo2.fresh w1 w1 runner OSError Hinit Hstart).
  reflexivity.
Defined.

(** ** More on [copy] *)

Lemma makedirs_rec_extends (fuel : nat) (name : string)
    (d d' : gmap string node) :
  os.makedirs_rec fuel name d = Ok d' -> d ⊆ d'.
Proof.
  assert (Hmk : forall n a a', os.mkdir n a = Ok a' -> a ⊆ a').
  { intros n a a'. unfold os.mkdir, os.exists_.
    destruct (a !! n) eqn:Hn; [done|].
    destruct (a !! fst (posixpath.split n)) as [[]|]; [done | | done].
    intros [= <-]. by apply insert_subseteq. }
  revert name d d'. induction fuel as [|fuel IH]; intros name d d'; [done|].
  cbn [os.makedirs_rec].
  destruct (posixpath.split name) as [h1 t1].
  destruct (if String.eqb t1 "" then posixpath.split h1 else (h1, t1))
    as [h t].
  destruct (_ && _); [|by apply Hmk].
  destruct (os.makedirs_rec fuel h d) as [d1|e] eqn:Hrec.
  - apply IH in Hrec.
    destruct (String.eqb t ".").
    + by intros [= <-].
    + intros Hm. apply Hmk in Hm. by etrans.
  - destruct e; try done.
    destruct (String.eqb t "."); [by intros [= <-] | by apply Hmk].
Qed.

Lemma copyfile_ok (src dst : string) (d d' : gmap string node) :
  shutil.copyfile src dst d = Ok d' ->
  exists data, d !! src = Some (File data) /\ d' = <[dst := File data]> d.
Proof.
  unfold shutil.copyfile.
  destruct (_ && _); [done|].
  destruct (d !! src) as [[data|]|]; [|done|done].
  destruct (d !! dst) as [[old|]|].
  - intros [= <-]. by exists data.
  - done.
  - destruct (d !! _) as [[]|]; [done| |done].
    intros [= <-]. by exists data.
Qed.

(** X25. After a turn of the copy loop that completes for a source that
    is a regular file, the destination holds the content of the source,
    and every other path that existed before still holds what it held:
    the turn only adds directories and writes the destination. *)
Theorem copy_entry_file
    (w w' : World) (build src dst data : string) (i n : nat) :
  copy_entry build n (i, (src, dst)) w = (Ok tt, w') ->
  disk w !! src = Some (File data) ->
  disk w' !! posixpath.join build dst = Some (File data) /\
  forall p node,
    p <> posixpath.join build dst ->
    disk w !! p = Some node -> disk w' !! p = Some node.
Proof.
  intros Hrun Hsrc. revert Hrun.
  unfold copy_entry, bind, modify, gets, lift, ret.
  cbn [disk print with_disk fst snd].
  set (dst_full := posixpath.join build dst).
  assert (Hfin : forall d1 w0,
            disk w ⊆ d1 ->
            (if os.isdir d1 src
             then match shutil.copytree src dst_full d1 with
                  | Ok a => (Ok tt, with_disk a w0)
                  | Raise e => (Raise e, w0)
                  end
             else match shutil.copyfile src dst_full d1 with
                  | Ok a => (Ok tt, with_disk a w0)
                  | Raise e => (Raise e, w0)
                  end) = (Ok tt, w') ->
            disk w' !! dst_full = Some (File data) /\
            forall p node, p <> dst_full ->
              disk w !! p = Some node -> disk w' !! p = Some node).
  { intros d1 w0 Hsub.
    pose proof (lookup_weaken _ _ _ _ Hsrc Hsub) as Hsrc1.
    unfold os.isdir. rewrite Hsrc1.
    destruct (shutil.copyfile src dst_full d1) as [d2|e] eqn:Hcp; [|done].
    intros [= <-]. cbn [disk with_disk].
    destruct (copyfile_ok _ _ _ _ Hcp) as (data' & Hd & ->).
    rewrite Hsrc1 in Hd. injection Hd as <-.
    split; [by rewrite lookup_insert_eq|].
    intros p node Hp Hnode. rewrite lookup_insert_ne by done.
    by apply (lookup_weaken _ _ _ _ Hnode Hsub). }
  destruct (negb (os.isdir (disk w) _)).
  - destruct (os.makedirs _ _) as [d1|e] eqn:Hmk; [|done].
    cbn [disk print with_disk]. intros Hrun.
    apply (Hfin d1 (with_disk d1 (print (Copying i n dst) w))).
    + by apply makedirs_rec_extends in Hmk.
    + by destruct (os.isdir d1 src).
  - cbn [disk print with_disk]. intros Hrun.
    apply (Hfin (disk w) (print (Copying i n dst) w)); [done|].
    by destruct (os.isdir (disk w) src).
Qed.

(** X26. When the destination of an entry is its own source, as when
    the build directory is the directory the unit is installed in, the
    turn raises [SameFileError] after printing its line, and the disk is
    unchanged. *)
Theorem copy_entry_same_file
    (w : World) (build src dst data : string) (i n : nat) :
  posixpath.join build dst = src ->
  disk w !! src = Some (File data) ->
  os.isdir (disk w) (dirname src) = true ->
  copy_entry build n (i, (src, dst)) w
  = (Raise SameFileError, print (Copying i n dst) w).
Proof.
  intros Hjoin Hsrc Hparent.
  unfold copy_entry, bind, modify, gets, lift, ret.
  cbn [disk print with_disk fst snd]. rewrite Hjoin.
  unfold dirname in Hparent. rewrite Hparent. cbn [negb].
  cbn [disk print with_disk].
  unfold os.isdir. rewrite Hsrc.
  unfold shutil.copyfile, os.exists_. by rewrite Hsrc, String.eqb_refl.
Qed.

Section CopyMore.
Context `{Platform}.

Lemma sizes_ok (copies : list (string * string)) (w w' : World)
    (sizes : list Z) :
  for_each (fun f => let* d := gets disk in lift (os.getsize d (fst f)))
    copies w = (Ok sizes, w') ->
  Forall2 (fun c size => os.getsize (disk w) (fst c) = Ok size) copies sizes.
Proof.
  revert sizes w'. induction copies as [|c copies IH]; intros sizes w'; simpl.
  - intros [= <- _]. constructor.
  - unfold bind at 1. unfold bind at 1. unfold gets at 1. unfold lift at 1.
    destruct (os.getsize (disk w) (fst c)) as [size|e] eqn:Hc; [|done].
    unfold bind at 1.
    destruct (for_each _ copies w) as [[zs|e] w1] eqn:Hrest; [|done].
    unfold ret. intros [= <- _]. constructor; [done|].
    by eapply IH.
Qed.

(** X27. The total [copy] prints before it copies anything is the sum of
    the sizes of the sources of the copy list, entry by entry: a file
    listed twice is counted twice. *)
Theorem copy_total_size
    (w w1 w2 : World) (copies : list (string * string))
    (build_path : string) :
  copy_list w = (Ok copies, w1) ->
  copy build_path w = (Ok tt, w2) ->
  exists sizes rest,
    Forall2 (fun c size => os.getsize (disk w) (fst c) = Ok size)
      copies sizes /\
    stdout w2 = stdout w ++ TotalSize (fold_left Z.add sizes 0) :: rest.
Proof.
  intros Hcl.
  pose proof (copy_list_keeps w) as Hfr. rewrite Hcl in Hfr.
  cbn [snd] in Hfr.
  assert (Hd : disk w1 = disk w).
  { change (disk (forget_totals w1) = disk (forget_totals w)).
    by rewrite Hfr. }
  assert (Ho : stdout w1 = stdout w).
  { change (stdout (forget_totals w1) = stdout (forget_totals w)).
    by rewrite Hfr. }
  unfold copy. unfold bind at 1. rewrite Hcl. unfold bind at 1.
  pose proof (sizes_pass copies w1) as Hsz.
  destruct (for_each _ copies w1) as [[sizes|x] w1'] eqn:Hs; [|done].
  simpl in Hsz. subst w1'.
  apply sizes_ok in Hs. rewrite Hd in Hs.
  unfold bind at 1. unfold modify at 1. unfold bind at 1.
  destruct (for_each _ (zip _ copies) _) as [[us|x] w3] eqn:Hloop; [|done].
  unfold ret. intros [= <-].
  exists sizes. eexists. split; [done|].
  rewrite (copy_loop_prints _ _ _ _ _ _ Hloop).
  cbn [print stdout]. rewrite Ho. by rewrite <- app_assoc.
Qed.

End CopyMore.

Lemma copy_entry_file_witness :
  disk (snd (copy_entry "/out" 2 (0%nat, ("/y/a.txt", "lib/a.txt"))
               Demo.same_name))
    !! posixpath.join "/out" "lib/a.txt" = Some (File "second file").
Proof.
  assert (Hrun : copy_entry "/out" 2 (0%nat, ("/y/a.txt", "lib/a.txt"))
                   Demo.same_name
                 = (Ok tt,
                    snd (copy_entry "/out" 2
                           (0%nat, ("/y/a.txt", "lib/a.txt"))
                           Demo.same_name)))
    by (vm_compute; reflexivity).
  assert (Hsrc : disk Demo.same_name !! "/y/a.txt"
                 = Some (File "second file")) by (vm_compute; reflexivity).
  exact (proj1 (copy_entry_file Demo.same_name _ "/out" "/y/a.txt"
                  "lib/a.txt" "second file" 0 2 Hrun Hsrc)).
Defined.

Lemma copy_entry_same_file_witness :
  copy_entry "/a" 1 (0%nat, ("/a/pkg/mod.py", "pkg/mod.py")) Demo.both
  = (Raise SameFileError, print (Copying 0 1 "pkg/mod.py") Demo.both).
Proof.
  apply (copy_entry_same_file Demo.both "/a" "/a/pkg/mod.py" "pkg/mod.py"
           "import os" 0 1).
  - reflexivity.
  - vm_compute. reflexivity.
  - vm_compute. reflexivity.
Defined.

Lemma copy_total_size_witness :
  exists sizes rest,
    Forall2 (fun c size => os.getsize (disk Demo.both) (fst c) = Ok size)
      [("/a/pkg/mod.py", "pkg/mod.py"); ("/a/pkg/mod.py", "pkg/mod.py")]
      sizes /\
    stdout (snd (copy (H := Demo.platform) "/out" Demo.both))
    = stdout Demo.both ++ TotalSize (fold_left Z.add sizes 0) :: rest.
Proof.
  assert (Hlist : copy_list (H := Demo.platform) Demo.both
                  = (Ok [("/a/pkg/mod.py", "pkg/mod.py");
                         ("/a/pkg/mod.py", "pkg/mod.py")],
                     snd (copy_list (H := Demo.platform) Demo.both)))
    by (vm_compute; reflexivity).
  assert (Hrun : copy (H := Demo.platform) "/out" Demo.both
                 = (Ok tt, snd (copy (H := Demo.platform) "/out" Demo.both)))
    by (vm_compute; reflexivity).
  exact (copy_total_size (H := Demo.platform) Demo.both _ _ _ "/out"
           Hlist Hrun).
Defined.
